(** * BoxVPS service orchestration: a shallow embedding

    The development follows [scripts/service_manager.py] (class
    [ServiceManager]), [scripts/protocol_manager.py] (class
    [ProtocolManager]) and [scripts/monitoring_manager.py] (class
    [MonitoringManager]).

    Modelling decisions, all of them visible in the definitions below:
    - a Python [dict] is an association list in insertion order;
      [d[k] = v] replaces the value in place when [k] is present and
      appends the pair otherwise, exactly as CPython does;
    - the three JSON files the managers read and write are fields of a
      [world]; a file holds the document [json.load] would return
      ([json.load] after [json.dump] is the identity on the documents used
      here: string keys, integers, booleans, [null], strings, lists);
    - a Python exception is the left summand of the result; a
      [try: ... except Exception] block is [try_except];
    - [subprocess.run] is called without [check=True] everywhere, so a
      tool that exits with an error never raises; the call itself raises
      [FileNotFoundError] when the executable is not on the host and
      [ValueError] when an argument holds a NUL byte, and is recorded in
      [commands] otherwise;
    - [open(path, 'w')] raises [FileNotFoundError] when the directory of
      [path] does not exist; [__init__] creates the data directory of
      users.json and stats.json, the directory of the xray artifact is
      part of the host;
    - a string is the sequence of its bytes, so [str.encode()] never
      fails;
    - [logger.error] appends the fixed prefix of its message to [errors];
    - [datetime.now().isoformat()] and [str(uuid.uuid4())] are read from an
      explicit environment [env]: one token, and the clock at the two
      moments a call can read it. *)

From Stdlib Require Import String List ZArith Bool Lia.
Import ListNotations.
Open Scope string_scope.
Open Scope Z_scope.

(* ------------------------------------------------------------------ *)
(** ** Python dictionaries *)

Module Dict.

Definition dict (A : Type) : Type := list (string * A).

Fixpoint get {A} (k : string) (d : dict A) : option A :=
  match d with
  | [] => None
  | (k', v) :: d' => if String.eqb k k' then Some v else get k d'
  end.

(** [k in d] *)
Definition mem {A} (k : string) (d : dict A) : bool :=
  match get k d with Some _ => true | None => false end.

(** [d[k] = v] *)
Fixpoint set {A} (k : string) (v : A) (d : dict A) : dict A :=
  match d with
  | [] => [(k, v)]
  | (k', v') :: d' =>
      if String.eqb k k' then (k', v) :: d' else (k', v') :: set k v d'
  end.

(** [del d[k]], for a key that is present *)
Fixpoint del {A} (k : string) (d : dict A) : dict A :=
  match d with
  | [] => []
  | (k', v') :: d' => if String.eqb k k' then d' else (k', v') :: del k d'
  end.

Definition keys {A} (d : dict A) : list string := map fst d.

(** A dictionary never holds a key twice. *)
Definition wf {A} (d : dict A) : Prop := NoDup (keys d).

End Dict.

Import Dict.

(* ------------------------------------------------------------------ *)
(** ** Documents *)

(** The scalar JSON values found in a user record and in a client entry. *)
Inductive value : Type :=
| VNone
| VBool (b : bool)
| VInt (z : Z)
| VStr (s : string).

(** Python truthiness, as used by [not user_data.get('banned', False)]. *)
Definition truthy (v : value) : bool :=
  match v with
  | VNone => false
  | VBool b => b
  | VInt z => negb (z =? 0)
  | VStr s => negb (String.eqb s "")
  end.

Abbreviation user_record := (dict value) (only parsing).
Abbreviation users_doc := (dict (dict value)) (only parsing).

Record traffic : Type := mk_traffic {
  upload : Z;
  download : Z;
  last_reset : string
}.
Abbreviation stats_doc := (dict traffic) (only parsing).

Abbreviation client := (dict value) (only parsing).

(** One element of [config['inbounds']], as [configure_xray] lays it out. *)
Record inbound : Type := mk_inbound {
  port : Z;
  protocol : string;
  clients : list client;      (* ['settings']['clients'] *)
  network : string;           (* ['streamSettings']['network'] *)
  ws_path : string            (* ['streamSettings']['wsSettings']['path'] *)
}.

Record xray_doc : Type := mk_xray {
  inbounds : list inbound;
  outbounds : list string     (* the protocol of each outbound *)
}.

(* ------------------------------------------------------------------ *)
(** ** The world the managers run in *)

(** What is found at a path: nothing, something [json.load] rejects (an
    empty or cut-off file for instance), or a document. *)
Inductive file (A : Type) : Type :=
| Missing
| Invalid
| Holds (a : A).
Arguments Missing {A}.
Arguments Invalid {A}.
Arguments Holds {A} a.

(** One [subprocess.run] call: the argument vector and the [input=] bytes. *)
Record command : Type := mk_command {
  argv : list string;
  stdin : option string
}.

(** What the operations find on the machine and never change. *)
Record host_facts : Type := mk_host {
  installed : list string;         (* the executables subprocess can start *)
  xray_dir : bool                  (* /usr/local/etc/xray exists *)
}.

Record world : Type := mk_world {
  users_file : file users_doc;     (* /etc/boxvps/data/users.json *)
  stats_file : file stats_doc;     (* /etc/boxvps/data/stats.json *)
  xray_file : file xray_doc;       (* /usr/local/etc/xray/config.json *)
  commands : list command;         (* most recent first *)
  errors : list string;            (* logger.error, most recent first *)
  host : host_facts
}.

Record env : Type := mk_env {
  now : string;      (* datetime.now().isoformat() *)
  uuid4 : string;    (* str(uuid.uuid4()) *)
  later : string     (* datetime.now().isoformat(), read again afterwards *)
}.

(** The environment at the second reading of the clock. *)
Definition tick (e : env) : env := mk_env (later e) (uuid4 e) (later e).

Definition with_users (f : file users_doc) (w : world) : world :=
  mk_world f (stats_file w) (xray_file w) (commands w) (errors w) (host w).
Definition with_stats (f : file stats_doc) (w : world) : world :=
  mk_world (users_file w) f (xray_file w) (commands w) (errors w) (host w).
Definition with_xray (f : file xray_doc) (w : world) : world :=
  mk_world (users_file w) (stats_file w) f (commands w) (errors w) (host w).
Definition with_command (c : command) (w : world) : world :=
  mk_world (users_file w) (stats_file w) (xray_file w) (c :: commands w) (errors w)
           (host w).
Definition with_error (msg : string) (w : world) : world :=
  mk_world (users_file w) (stats_file w) (xray_file w) (commands w) (msg :: errors w)
           (host w).

(* ------------------------------------------------------------------ *)
(** ** Exceptions and state *)

Inductive exn : Type :=
| FileNotFoundError
| JSONDecodeError
| KeyError (k : string)
| TypeError
| ValueError.

Definition M (A : Type) : Type := world -> (exn + A) * world.

Definition ret {A} (a : A) : M A := fun w => (inr a, w).
Definition raise {A} (e : exn) : M A := fun w => (inl e, w).
Definition bind {A B} (m : M A) (k : A -> M B) : M B :=
  fun w => match m w with
           | (inl e, w') => (inl e, w')
           | (inr a, w') => k a w'
           end.
Definition modify (f : world -> world) : M unit := fun w => (inr tt, f w).
Definition lift {A} (r : exn + A) : M A := fun w => (r, w).

Declare Scope py_scope.
Delimit Scope py_scope with py.
Notation "x <- m ;; k" := (bind m (fun x => k))
  (at level 100, m at next level, right associativity) : py_scope.
Notation "m ;;; k" := (bind m (fun _ => k))
  (at level 100, right associativity) : py_scope.
Open Scope py_scope.

(** [try: body / except Exception as e: logger.error(msg); return dflt] *)
Definition try_except {A} (body : M A) (msg : string) (dflt : A) : M A :=
  fun w => match body w with
           | (inl _, w') => (inr dflt, with_error msg w')
           | (inr a, w') => (inr a, w')
           end.

(** An argument with an embedded NUL byte. *)
Fixpoint has_nul (s : string) : bool :=
  match s with
  | EmptyString => false
  | String c rest => Ascii.eqb c Ascii.zero || has_nul rest
  end.

(** Whether the host has the executable named first in [a]. *)
Definition on_host (a : list string) (w : world) : bool :=
  match a with
  | [] => false
  | exe :: _ => existsb (String.eqb exe) (installed (host w))
  end.

(** Whether [subprocess.run(a)] starts the process instead of raising. *)
Definition can_run (a : list string) (w : world) : bool :=
  negb (existsb has_nul a) && on_host a w.

(** [subprocess.run(argv, input=stdin)], never with [check=True]: the
    exit status of the tool is ignored, but the call raises before
    anything runs when an argument holds a NUL byte or the executable is
    not there. *)
Definition subprocess_run (a : list string) (i : option string) : M unit :=
  fun w =>
    if existsb has_nul a then (inl ValueError, w)
    else if on_host a w then (inr tt, with_command (mk_command a i) w)
    else (inl FileNotFoundError, w).

(** The value an operation returns and the world it leaves. *)
Definition result {A} (m : M A) (w : world) : exn + A := fst (m w).
Definition after {A} (m : M A) (w : world) : world := snd (m w).

(* ------------------------------------------------------------------ *)
(** ** Writing a JSON file

    Every writer in the three managers has the shape
    [with open(path, 'w') as f: json.dump(doc, f, indent=4)].  Opening
    with mode ['w'] truncates the file at [path] itself; the document is
    then written into that same file.  No other path is involved.  The
    two effects are kept apart so that the states a reader can find when
    the process stops in between are part of the model. *)

Definition run_steps (steps : list (world -> world)) (w : world) : world :=
  fold_left (fun acc step => step acc) steps w.

(** [open(path, 'w')] then [json.dump(doc, f, indent=4)], on the file
    selected by [put]. *)
Definition write_steps {A} (put : file A -> world -> world) (doc : A)
  : list (world -> world) :=
  [put Invalid; put (Holds doc)].

(** The worlds that exist while [steps] run: before the first step, and
    after each one. *)
Fixpoint observable_states (steps : list (world -> world)) (w : world)
  : list world :=
  match steps with
  | [] => [w]
  | s :: rest => w :: observable_states rest (s w)
  end.

(* ------------------------------------------------------------------ *)
(** ** MonitoringManager *)

Definition _load_stats : M stats_doc :=
  fun w => match stats_file w with
           | Missing => (inr [], w)            (* except FileNotFoundError *)
           | Invalid => (inl JSONDecodeError, w)
           | Holds s => (inr s, w)
           end.

Definition _save_stats_steps (stats : stats_doc) : list (world -> world) :=
  write_steps with_stats stats.

Definition _save_stats (stats : stats_doc) : M unit :=
  modify (run_steps (_save_stats_steps stats)).

(** [stats[username]] *)
Definition stats_item (username : string) (stats : stats_doc) : M traffic :=
  match get username stats with
  | Some t => ret t
  | None => raise (KeyError username)
  end.

Definition update_user_traffic (e : env) (username : string) (up down : Z)
  : M bool :=
  try_except
    (stats <- _load_stats ;;
     let stats :=
       if negb (mem username stats)
       then set username (mk_traffic 0 0 (now e)) stats
       else stats in
     t <- stats_item username stats ;;
     let stats := set username (mk_traffic (upload t + up) (download t) (last_reset t)) stats in
     t <- stats_item username stats ;;
     let stats := set username (mk_traffic (upload t) (download t + down) (last_reset t)) stats in
     _save_stats stats ;;;
     ret true)
    "Error updating user traffic" false.

Definition reset_user_traffic (e : env) (username : string) : M bool :=
  try_except
    (stats <- _load_stats ;;
     (if mem username stats
      then _save_stats (set username (mk_traffic 0 0 (now e)) stats)
      else ret tt) ;;;
     ret true)
    "Error resetting user traffic" false.

(** [users.get(username, {}).get('quota')] read from users.json; [None]
    of Python is [VNone]. *)
Definition _get_user_quota (username : string) : M value :=
  try_except
    (fun w => match users_file w with
              | Missing => (inl FileNotFoundError, w)
              | Invalid => (inl JSONDecodeError, w)
              | Holds users =>
                  let record := match get username users with
                                | Some r => r
                                | None => []
                                end in
                  (inr (match get "quota" record with
                        | Some q => q
                        | None => VNone
                        end), w)
              end)
    "Error getting user quota" VNone.

(** [total_traffic < (quota * 1024 * 1024 * 1024)] for a quota that is
    not [None]: a boolean counts as 0 or 1, a string makes the
    comparison raise. *)
Definition below_quota (total : Z) (quota : value) : M bool :=
  match quota with
  | VNone => ret true
  | VInt q => ret (total <? q * 1024 * 1024 * 1024)
  | VBool b => ret (total <? (if b then 1 else 0) * 1024 * 1024 * 1024)
  | VStr _ => raise TypeError
  end.

Definition check_user_quota (username : string) : M bool :=
  try_except
    (stats <- _load_stats ;;
     if negb (mem username stats) then ret true
     else
       user_stats <- stats_item username stats ;;
       let total_traffic := upload user_stats + download user_stats in
       quota <- _get_user_quota username ;;
       match quota with
       | VNone => ret true
       | _ => below_quota total_traffic quota
       end)
    "Error checking user quota" true.

(* ------------------------------------------------------------------ *)
(** ** ProtocolManager *)

(** [protocols.get(name, {}).get('enabled', dflt)] *)
Definition enabled (protocols : dict (dict value)) (name : string) (dflt : bool)
  : bool :=
  match get name protocols with
  | None => dflt
  | Some p => match get "enabled" p with
              | None => dflt
              | Some v => truthy v
              end
  end.

Definition _save_xray_steps (config : xray_doc) : list (world -> world) :=
  write_steps with_xray config.

(** Whether [open(self.xray_config, 'w')] finds the directory: it is
    there when the file is, and otherwise as the host has it. *)
Definition xray_writable (w : world) : bool :=
  match xray_file w with
  | Missing => xray_dir (host w)
  | _ => true
  end.

(** [with open(self.xray_config, 'w') as f: json.dump(config, f, indent=4)] *)
Definition save_xray (config : xray_doc) : M unit :=
  fun w =>
    if xray_writable w
    then (inr tt, run_steps (_save_xray_steps config) w)
    else (inl FileNotFoundError, w).

Definition restart_xray : M unit :=
  subprocess_run ["systemctl"; "restart"; "xray"] None.

Definition configure_xray (xport : Z) (protocols : dict (dict value)) : M bool :=
  try_except
    (let config := mk_xray [] ["freedom"] in
     let add (on : bool) (i : inbound) (c : xray_doc) :=
       if on then mk_xray (inbounds c ++ [i]) (outbounds c) else c in
     let config := add (enabled protocols "vmess" true)
                       (mk_inbound xport "vmess" [] "ws" "/vmess") config in
     let config := add (enabled protocols "vless" false)
                       (mk_inbound (xport + 1) "vless" [] "ws" "/vless") config in
     let config := add (enabled protocols "trojan" false)
                       (mk_inbound (xport + 2) "trojan" [] "ws" "/trojan") config in
     save_xray config ;;;
     restart_xray ;;;
     ret true)
    "Error configuring Xray" false.

(** [users[username]['uuid']] *)
Definition user_uuid (users : users_doc) (username : string) : exn + value :=
  match get username users with
  | None => inl (KeyError username)
  | Some record =>
      match get "uuid" record with
      | None => inl (KeyError "uuid")
      | Some v => inr v
      end
  end.

(** The list comprehension
    [[entry(users[username]['uuid']) for username, user_data in users.items()
      if not user_data.get('banned', False)]],
    with [items] the part of [users.items()] still to visit. *)
Fixpoint comprehension (entry : value -> client) (users items : users_doc)
  : exn + list client :=
  match items with
  | [] => inr []
  | (username, user_data) :: rest =>
      let banned := match get "banned" user_data with
                    | Some v => truthy v
                    | None => false
                    end in
      if negb banned then
        match user_uuid users username with
        | inl e => inl e
        | inr id =>
            match comprehension entry users rest with
            | inl e => inl e
            | inr cs => inr (entry id :: cs)
            end
        end
      else comprehension entry users rest
  end.

Definition vmess_entry (id : value) : client := [("id", id); ("alterId", VInt 0)].
Definition vless_entry (id : value) : client := [("id", id)].
Definition trojan_entry (id : value) : client := [("password", id)].

Definition set_clients (i : inbound) (cs : list client) : inbound :=
  mk_inbound (port i) (protocol i) cs (network i) (ws_path i).

(** The body of [for inbound in config['inbounds']]. *)
Definition update_inbound (users : users_doc) (i : inbound) : exn + inbound :=
  if String.eqb (protocol i) "vmess" then
    match comprehension vmess_entry users users with
    | inl e => inl e
    | inr cs => inr (set_clients i cs)
    end
  else if String.eqb (protocol i) "vless" then
    match comprehension vless_entry users users with
    | inl e => inl e
    | inr cs => inr (set_clients i cs)
    end
  else if String.eqb (protocol i) "trojan" then
    match comprehension trojan_entry users users with
    | inl e => inl e
    | inr cs => inr (set_clients i cs)
    end
  else inr i.

Fixpoint update_inbounds (users : users_doc) (l : list inbound)
  : exn + list inbound :=
  match l with
  | [] => inr []
  | i :: rest =>
      match update_inbound users i with
      | inl e => inl e
      | inr i' =>
          match update_inbounds users rest with
          | inl e => inl e
          | inr rest' => inr (i' :: rest')
          end
      end
  end.

Definition load_xray : M xray_doc :=
  fun w => match xray_file w with
           | Missing => (inl FileNotFoundError, w)
           | Invalid => (inl JSONDecodeError, w)
           | Holds c => (inr c, w)
           end.

Definition update_xray_users (users : users_doc) : M bool :=
  try_except
    (config <- load_xray ;;
     inbounds' <- lift (update_inbounds users (inbounds config)) ;;
     save_xray (mk_xray inbounds' (outbounds config)) ;;;
     restart_xray ;;;
     ret true)
    "Error updating Xray users" false.

(* ------------------------------------------------------------------ *)
(** ** ServiceManager *)

Definition _load_users : M users_doc :=
  fun w => match users_file w with
           | Missing => (inr [], w)            (* except FileNotFoundError *)
           | Invalid => (inl JSONDecodeError, w)
           | Holds u => (inr u, w)
           end.

Definition _save_users_steps (users : users_doc) : list (world -> world) :=
  write_steps with_users users.

Definition _save_users (users : users_doc) : M unit :=
  modify (run_steps (_save_users_steps users)).

(** [users[username][field] = v] *)
Definition set_field (username field : string) (v : value) (users : users_doc)
  : M users_doc :=
  match get username users with
  | None => raise (KeyError username)
  | Some record => ret (set username (set field v record) users)
  end.

Definition quota_value (quota : option Z) : value :=
  match quota with
  | Some q => VInt q
  | None => VNone
  end.

Definition new_user_data (e : env) (password : string) (quota : option Z)
  : user_record :=
  [ ("password", VStr password);
    ("created_at", VStr (now e));
    ("quota", quota_value quota);
    ("quota_used", VInt 0);
    ("banned", VBool false);
    ("locked", VBool false);
    ("last_login", VNone);
    ("login_attempts", VInt 0) ].

Definition add_user (e : env) (username password service : string)
  (quota : option Z) : M bool :=
  try_except
    (users <- _load_users ;;
     if mem username users then ret false
     else
       let user_data := new_user_data e password quota in
       let user_data :=
         if String.eqb service "xray"
         then set "uuid" (VStr (uuid4 e)) user_data
         else user_data in
       let users := set username user_data users in
       _save_users users ;;;
       (if String.eqb service "ssh"
        then
          subprocess_run ["useradd"; "-m"; "-s"; "/bin/bash"; username] None ;;;
          subprocess_run ["chpasswd"] (Some (username ++ ":" ++ password))
        else ret tt) ;;;
       (if String.eqb service "xray"
        then _ <- update_xray_users users ;; ret tt
        else ret tt) ;;;
       _ <- update_user_traffic (tick e) username 0 0 ;;
       ret true)
    "Error adding user" false.

Definition delete_user (e : env) (username : string) : M bool :=
  try_except
    (users <- _load_users ;;
     if negb (mem username users) then ret false
     else
       subprocess_run ["userdel"; "-r"; username] None ;;;
       let users := del username users in
       _save_users users ;;;
       _ <- update_xray_users users ;;
       _ <- reset_user_traffic e username ;;
       ret true)
    "Error deleting user" false.

Definition ban_user (e : env) (username service : string) : M bool :=
  try_except
    (users <- _load_users ;;
     if negb (mem username users) then ret false
     else
       users <- set_field username "banned" (VBool true) users ;;
       users <- set_field username "banned_at" (VStr (now e)) users ;;
       _save_users users ;;;
       (if String.eqb service "ssh"
        then subprocess_run ["fail2ban-client"; "set"; "sshd"; "banip"; username] None
        else if String.eqb service "xray"
        then _ <- update_xray_users users ;; ret tt
        else ret tt) ;;;
       ret true)
    "Error banning user" false.

Definition unban_user (username service : string) : M bool :=
  try_except
    (users <- _load_users ;;
     if negb (mem username users) then ret false
     else
       users <- set_field username "banned" (VBool false) users ;;
       users <- set_field username "banned_at" VNone users ;;
       _save_users users ;;;
       (if String.eqb service "ssh"
        then subprocess_run ["fail2ban-client"; "set"; "sshd"; "unbanip"; username] None
        else if String.eqb service "xray"
        then _ <- update_xray_users users ;; ret tt
        else ret tt) ;;;
       ret true)
    "Error unbanning user" false.

Definition set_quota (username service : string) (quota : Z) : M bool :=
  try_except
    (users <- _load_users ;;
     if negb (mem username users) then ret false
     else
       users <- set_field username "quota" (VInt quota) users ;;
       _save_users users ;;;
       ret true)
    "Error setting quota" false.

Definition change_uuid (e : env) (username : string) : M bool :=
  try_except
    (users <- _load_users ;;
     if negb (mem username users) then ret false
     else
       users <- set_field username "uuid" (VStr (uuid4 e)) users ;;
       _save_users users ;;;
       _ <- update_xray_users users ;;
       ret true)
    "Error changing UUID" false.

(** The six mutating operations of the administrative front-end. *)
Inductive op : Type :=
| AddUser (e : env) (username password service : string) (quota : option Z)
| DeleteUser (e : env) (username : string)
| BanUser (e : env) (username service : string)
| UnbanUser (username service : string)
| SetQuota (username service : string) (quota : Z)
| ChangeUuid (e : env) (username : string).

Definition run_op (o : op) : M bool :=
  match o with
  | AddUser e u p s q => add_user e u p s q
  | DeleteUser e u => delete_user e u
  | BanUser e u s => ban_user e u s
  | UnbanUser u s => unban_user u s
  | SetQuota u s q => set_quota u s q
  | ChangeUuid e u => change_uuid e u
  end.

(* ------------------------------------------------------------------ *)
(** ** Reading the store *)

(** What [_load_users] yields when it does not raise. *)
Definition stored_users (w : world) : users_doc :=
  match users_file w with
  | Holds u => u
  | _ => []
  end.

(** [users[username][field]] in the stored document, when both exist. *)
Definition user_field (w : world) (username field : string) : option value :=
  match get username (stored_users w) with
  | Some record => get field record
  | None => None
  end.

(** The effect of an operation on the user document alone: [None] when
    the operation returns at its first check. *)
Definition store_step (o : op) (users : users_doc) : option users_doc :=
  match o with
  | AddUser e u p s q =>
      if mem u users then None
      else Some (set u (if String.eqb s "xray"
                        then set "uuid" (VStr (uuid4 e)) (new_user_data e p q)
                        else new_user_data e p q) users)
  | DeleteUser _ u => if mem u users then Some (del u users) else None
  | BanUser e u _ =>
      match get u users with
      | Some r => Some (set u (set "banned_at" (VStr (now e))
                                 (set "banned" (VBool true) r)) users)
      | None => None
      end
  | UnbanUser u _ =>
      match get u users with
      | Some r => Some (set u (set "banned_at" VNone
                                 (set "banned" (VBool false) r)) users)
      | None => None
      end
  | SetQuota u _ q =>
      match get u users with
      | Some r => Some (set u (set "quota" (VInt q) r) users)
      | None => None
      end
  | ChangeUuid e u =>
      match get u users with
      | Some r => Some (set u (set "uuid" (VStr (uuid4 e)) r) users)
      | None => None
      end
  end.

(* ------------------------------------------------------------------ *)
(** ** Vocabulary of the properties *)

Definition xray_error : string := "Error updating Xray users".

(** [update_xray_users] ran between [w] and [w'] and took its
    [except] branch, which is the only place that logs [xray_error]. *)
Definition apply_failed (w w' : world) : Prop :=
  (count_occ string_dec (errors w) xray_error
   < count_occ string_dec (errors w') xray_error)%nat.



(** The inbounds whose client list [update_xray_users] rewrites. *)
Definition managed (i : inbound) : bool :=
  String.eqb (protocol i) "vmess"
  || String.eqb (protocol i) "vless"
  || String.eqb (protocol i) "trojan".

(** A client entry that authorises token [t]. *)
Definition carries (t : value) (c : client) : Prop :=
  get "id" c = Some t \/ get "password" c = Some t.

Definition token_absent (t : value) (w : world) : Prop :=
  forall cfg i c,
    xray_file w = Holds cfg -> In i (inbounds cfg) -> managed i = true ->
    In c (clients i) -> ~ carries t c.

Definition token_present (t : value) (w : world) : Prop :=
  exists cfg,
    xray_file w = Holds cfg /\
    forall i, In i (inbounds cfg) -> managed i = true ->
              exists c, In c (clients i) /\ carries t c.

(** Ban then unban of a token-bearing user, judged on the artifact only
    by the results the two operations return. *)
Definition ban_unban_by_result : Prop :=
  forall (e : env) (u : string) (t : value) (w : world),
    user_field w u "uuid" = Some t ->
    result (ban_user e u "xray") w = inr true ->
    let w1 := after (ban_user e u "xray") w in
    token_absent t w1 /\
    (result (unban_user u "xray") w1 = inr true ->
     token_present t (after (unban_user u "xray") w1)).

(** [not user_data.get('banned', False)] *)
Definition unbanned (r : user_record) : bool :=
  negb (match get "banned" r with Some v => truthy v | None => false end).

(** The client list as the specification words it: keep the users that
    are not banned and carry a token, project each to its entry, in the
    order of the mapping. *)
Fixpoint active_clients (entry : value -> client) (users : users_doc)
  : list client :=
  match users with
  | [] => []
  | (_, r) :: rest =>
      match get "uuid" r with
      | Some id =>
          if unbanned r then entry id :: active_clients entry rest
          else active_clients entry rest
      | None => active_clients entry rest
      end
  end.

(** The traffic of a user as [get_user_traffic] reports it: the stored
    counters, and zero for a user the stats file does not track. *)
Definition usage_total (w : world) (u : string) : Z :=
  match get u (match stats_file w with Holds s => s | _ => [] end) with
  | Some t => upload t + download t
  | None => 0
  end.

(** Over quota exactly when the traffic has reached [q * 2^30], for
    every user that has a quota [q]. *)
Definition over_quota_at_threshold : Prop :=
  forall (u : string) (w : world) (q : Z),
    user_field w u "quota" = Some (VInt q) ->
    (result (check_user_quota u) w = inr false <->
     usage_total w u >= q * 2 ^ 30).

(** No state in which the canonical users file is neither the old nor
    the complete new document. *)
Definition save_is_atomic : Prop :=
  forall (users : users_doc) (w s : world),
    In s (observable_states (_save_users_steps users) w) ->
    users_file s = users_file w \/ users_file s = Holds users.

(** Bookkeeping for histories: the service each stored user was created
    with.  It is not part of the program's state. *)
Definition track (o : op) (ok : bool) (g : dict string) : dict string :=
  match o, ok with
  | AddUser _ u _ s _, true => set u s g
  | DeleteUser _ u, true => del u g
  | _, _ => g
  end.

(** Whether a call created or removed its user, read off the store
    before and after it.  [add_user] saves the record before it runs
    [useradd], so a record can be created by a call that returns
    [False]: the bookkeeping follows the store, not the value
    returned. *)
Definition took_effect (o : op) (w w' : world) : bool :=
  match o with
  | AddUser _ u _ _ _ => negb (mem u (stored_users w)) && mem u (stored_users w')
  | DeleteUser _ u => mem u (stored_users w) && negb (mem u (stored_users w'))
  | _ => false
  end.

Fixpoint run_ops (ops : list op) (g : dict string) (w : world)
  : dict string * world :=
  match ops with
  | [] => (g, w)
  | o :: rest =>
      run_ops rest (track o (took_effect o w (after (run_op o) w)) g)
              (after (run_op o) w)
  end.

(** A stored record has a ['uuid'] key exactly when its user was created
    with service ['xray']. *)
Definition token_iff_xray (g : dict string) (w : world) : Prop :=
  forall u r,
    get u (stored_users w) = Some r ->
    exists s, get u g = Some s /\ (mem "uuid" r = true <-> s = "xray").

Definition token_follows_creation : Prop :=
  forall (ops : list op) (w0 : world),
    users_file w0 = Holds [] ->
    token_iff_xray (fst (run_ops ops [] w0)) (snd (run_ops ops [] w0)).

(** Histories in which [change_uuid] is only called on users created
    with service ['xray'] (or on names the store does not hold). *)
Fixpoint uuid_changes_on_xray (ops : list op) (g : dict string) (w : world)
  : Prop :=
  match ops with
  | [] => True
  | o :: rest =>
      match o with
      | ChangeUuid _ u => forall s, get u g = Some s -> s = "xray"
      | _ => True
      end
      /\ uuid_changes_on_xray rest
           (track o (took_effect o w (after (run_op o) w)) g)
           (after (run_op o) w)
  end.

(** [banned_at] moves only when [banned] goes from false to true. *)
Definition banned_at_on_transition : Prop :=
  forall (e : env) (u s : string) (w : world),
    result (ban_user e u s) w = inr true ->
    let w' := after (ban_user e u s) w in
    (user_field w u "banned" = Some (VBool false) ->
     user_field w' u "banned_at" = Some (VStr (now e)))
    /\ (user_field w u "banned" = Some (VBool true) ->
        user_field w' u "banned_at" = user_field w u "banned_at").

(** The three projections [update_xray_users] uses. *)
Definition is_entry (entry : value -> client) : Prop :=
  entry = vmess_entry \/ entry = vless_entry \/ entry = trojan_entry.

(** The argument vectors the managers start. *)
Definition restart_argv : list string := ["systemctl"; "restart"; "xray"].
Definition useradd_argv (u : string) : list string :=
  ["useradd"; "-m"; "-s"; "/bin/bash"; u].
Definition userdel_argv (u : string) : list string := ["userdel"; "-r"; u].
Definition banip_argv (u : string) : list string :=
  ["fail2ban-client"; "set"; "sshd"; "banip"; u].
Definition unbanip_argv (u : string) : list string :=
  ["fail2ban-client"; "set"; "sshd"; "unbanip"; u].

(** Whether the tools an operation starts itself (outside
    [update_xray_users], which has its own [try]) can all be started. *)
Definition own_tools_ok (o : op) (w : world) : bool :=
  match o with
  | AddUser _ u _ s _ =>
      if String.eqb s "ssh"
      then can_run (useradd_argv u) w && can_run ["chpasswd"] w
      else true
  | DeleteUser _ u => can_run (userdel_argv u) w
  | BanUser _ u s =>
      if String.eqb s "ssh" then can_run (banip_argv u) w else true
  | UnbanUser u s =>
      if String.eqb s "ssh" then can_run (unbanip_argv u) w else true
  | SetQuota _ _ _ => true
  | ChangeUuid _ _ => true
  end.

(** The document [configure_xray] builds before it writes it. *)
Definition xray_layout (xport : Z) (protocols : dict (dict value)) : xray_doc :=
  mk_xray
    ((if enabled protocols "vmess" true
      then [mk_inbound xport "vmess" [] "ws" "/vmess"] else [])
     ++ (if enabled protocols "vless" false
         then [mk_inbound (xport + 1) "vless" [] "ws" "/vless"] else [])
     ++ (if enabled protocols "trojan" false
         then [mk_inbound (xport + 2) "trojan" [] "ws" "/trojan"] else []))
    ["freedom"].

(** What [update_xray_users users] writes to the artifact: [None] when
    it raises before the write. *)
Definition xray_outcome (users : users_doc) (w : world) : option xray_doc :=
  match xray_file w with
  | Holds cfg =>
      match update_inbounds users (inbounds cfg) with
      | inr l => Some (mk_xray l (outbounds cfg))
      | inl _ => None
      end
  | _ => None
  end.

(* ------------------------------------------------------------------ *)
(** ** Sample runs *)

Definition env_1 : env :=
  mk_env "2024-05-01T10:00:00" "uuid-alice" "2024-05-01T10:00:01".
Definition env_2 : env :=
  mk_env "2024-05-02T11:30:00" "uuid-bob" "2024-05-02T11:30:01".

(** A host with every tool the managers start and with the xray
    directory in place. *)
Definition host_ready : host_facts :=
  mk_host ["systemctl"; "useradd"; "chpasswd"; "userdel"; "fail2ban-client"]
          true.

(** A host on which xray and fail2ban were never installed. *)
Definition host_bare : host_facts :=
  mk_host ["useradd"; "chpasswd"; "userdel"] false.

(** A host on which [__init__] has created empty users and stats files
    and xray has not been configured yet. *)
Definition world_fresh : world :=
  mk_world (Holds []) (Holds []) Missing [] [] host_ready.

(** The same files on a host without xray and fail2ban. *)
Definition world_bare : world :=
  mk_world (Holds []) (Holds []) Missing [] [] host_bare.

(** ... then [configure_xray(443, {})]: one vmess inbound. *)
Definition world_configured : world :=
  after (configure_xray 443 []) world_fresh.

(** ... then [add_user('alice', 'pw', 'xray', 5)]. *)
Definition world_alice : world :=
  after (add_user env_1 "alice" "pw" "xray" (Some 5)) world_configured.

(** ... then [add_user('bob', 'pw', 'ssh')]. *)
Definition world_alice_bob : world :=
  after (add_user env_2 "bob" "pw" "ssh" None) world_alice.

(** The other order: the SSH user first, the proxy user second. *)
Definition world_bob_alice : world :=
  after (add_user env_1 "alice" "pw" "xray" (Some 5))
        (after (add_user env_2 "bob" "pw" "ssh" None) world_configured).

(** alice added for xray on the host without xray and fail2ban. *)
Definition world_bare_alice : world :=
  after (add_user env_1 "alice" "pw" "xray" (Some 5)) world_bare.

(** alice added as before, on a host that has no [useradd]. *)
Definition world_alice_no_useradd : world :=
  mk_world (users_file world_alice) (stats_file world_alice)
           (xray_file world_alice) (commands world_alice) (errors world_alice)
           (mk_host ["systemctl"; "chpasswd"] true).

(** alice was banned on the first day; it is now the second. *)
Definition world_alice_banned : world :=
  after (ban_user env_1 "alice" "ssh") world_alice.

(** alice has quota 0 and the stats file has no entry for her. *)
Definition world_quota_zero_untracked : world :=
  with_stats (Holds []) (after (set_quota "alice" "xray" 0) world_alice).

(** alice has used exactly her 5 GB / one byte less. *)
Definition world_at_quota : world :=
  after (update_user_traffic env_1 "alice" (4 * 2 ^ 30) (2 ^ 30)) world_alice.
Definition world_below_quota : world :=
  after (update_user_traffic env_1 "alice" (4 * 2 ^ 30) (2 ^ 30 - 1)) world_alice.

(** A history that respects the backend each user was created for, and
    one that does not. *)
Definition history_ok : list op :=
  [ AddUser env_1 "alice" "pw" "xray" (Some 5);
    AddUser env_2 "bob" "pw" "ssh" None;
    BanUser env_2 "alice" "xray";
    ChangeUuid env_2 "alice";
    SetQuota "bob" "ssh" 10;
    UnbanUser "alice" "xray";
    DeleteUser env_2 "alice" ].

Definition history_foreign_uuid : list op :=
  [ AddUser env_2 "bob" "pw" "ssh" None;
    ChangeUuid env_1 "bob" ].

(* ------------------------------------------------------------------ *)
(** ** The readers: traffic, user information, active proxy users *)

(** What [_load_stats] yields when it does not raise. *)
Definition stored_stats (w : world) : dict traffic :=
  match stats_file w with
  | Holds s => s
  | _ => []
  end.

(** [stats.get(username, {'upload': 0, 'download': 0, 'last_reset': now})] *)
Definition traffic_or_zero (e : env) (username : string) (stats : dict traffic)
  : traffic :=
  match get username stats with
  | Some t => t
  | None => mk_traffic 0 0 (now e)
  end.

Definition get_user_traffic (e : env) (username : string) : M (option traffic) :=
  try_except
    (stats <- _load_stats ;;
     ret (Some (traffic_or_zero e username stats)))
    "Error getting user traffic" None.

(** A value of the dictionary [get_user_info] returns: one of the stored
    scalars, or the traffic dictionary put under ['traffic']. *)
Inductive info_value : Type :=
| Scalar (v : value)
| Traffic (t : traffic).

Definition scalars (r : dict value) : dict info_value :=
  map (fun kv => (fst kv, Scalar (snd kv))) r.

(** [get_user_info] has no [try]: what [_load_users] raises reaches the
    caller.  [if user_data:] is false for [None] and for an empty
    record; [if traffic:] is false only for [None]. *)
Definition get_user_info (e : env) (username : string)
  : M (option (dict info_value)) :=
  users <- _load_users ;;
  match get username users with
  | None => ret None
  | Some [] => ret (Some [])
  | Some user_data =>
      traffic <- get_user_traffic e username ;;
      match traffic with
      | Some t => ret (Some (set "traffic" (Traffic t) (scalars user_data)))
      | None => ret (Some (scalars user_data))
      end
  end.

(** [[client['id'] for client in inbound['settings']['clients']]] *)
Fixpoint client_ids (cs : list (dict value)) : exn + list value :=
  match cs with
  | [] => inr []
  | c :: rest =>
      match get "id" c with
      | None => inl (KeyError "id")
      | Some id =>
          match client_ids rest with
          | inl e => inl e
          | inr ids => inr (id :: ids)
          end
      end
  end.

(** [[client['id'] for inbound in config['inbounds']
      for client in inbound['settings']['clients']]] *)
Fixpoint inbound_ids (l : list inbound) : exn + list value :=
  match l with
  | [] => inr []
  | i :: rest =>
      match client_ids (clients i) with
      | inl e => inl e
      | inr ids =>
          match inbound_ids rest with
          | inl e => inl e
          | inr ids' => inr (ids ++ ids')%list
          end
      end
  end.

Definition _get_active_xray_users : M (list value) :=
  try_except
    (config <- load_xray ;;
     lift (inbound_ids (inbounds config)))
    "Error getting active Xray users" [].

(** The message each operation logs in its [except] branch. *)
Definition op_error (o : op) : string :=
  match o with
  | AddUser _ _ _ _ _ => "Error adding user"
  | DeleteUser _ _ => "Error deleting user"
  | BanUser _ _ _ => "Error banning user"
  | UnbanUser _ _ => "Error unbanning user"
  | SetQuota _ _ _ => "Error setting quota"
  | ChangeUuid _ _ => "Error changing UUID"
  end.

(** The username an operation is about. *)
Definition op_target (o : op) : string :=
  match o with
  | AddUser _ u _ _ _ => u
  | DeleteUser _ u => u
  | BanUser _ u _ => u
  | UnbanUser u _ => u
  | SetQuota u _ _ => u
  | ChangeUuid _ u => u
  end.

(** alice and bob stored, bob with 3 + 4 bytes of traffic. *)
Definition world_traffic : world :=
  after (update_user_traffic env_2 "bob" 3 4) world_alice_bob.

(** A trojan inbound beside the vmess one, alice stored and applied. *)
Definition world_trojan : world :=
  after (add_user env_1 "alice" "pw" "xray" (Some 5))
        (after (configure_xray 443 [("trojan", [("enabled", VBool true)])])
               world_fresh).

(** The tokens of the users that are not banned and carry one, in the
    order of the mapping. *)
Fixpoint active_ids (users : dict (dict value)) : list value :=
  match users with
  | [] => []
  | (_, r) :: rest =>
      match get "uuid" r with
      | Some id => if unbanned r then id :: active_ids rest else active_ids rest
      | None => active_ids rest
      end
  end.

(** The client list a successful [update_xray_users users] leaves in
    inbound [i]: rebuilt for the three protocols it knows, kept for any
    other. *)
Definition expected_clients (users : dict (dict value)) (i : inbound)
  : list (dict value) :=
  if String.eqb (protocol i) "vmess" then map vmess_entry (active_ids users)
  else if String.eqb (protocol i) "vless" then map vless_entry (active_ids users)
  else if String.eqb (protocol i) "trojan" then map trojan_entry (active_ids users)
  else clients i.

Definition restart_command : command :=
  mk_command ["systemctl"; "restart"; "xray"] None.

Definition userdel_command (username : string) : command :=
  mk_command ["userdel"; "-r"; username] None.

(* ------------------------------------------------------------------ *)
(** ** Facts about dictionaries *)

Section DictFacts.
Context {A : Type}.
Implicit Types (d : dict A) (k : string) (v : A).

Lemma get_set_same k v d : get k (set k v d) = Some v.
Proof.
  induction d as [|[k' v'] d IH]; simpl.
  - now rewrite String.eqb_refl.
  - destruct (String.eqb k k') eqn:E; simpl; rewrite E; auto.
Qed.

Lemma get_set_other k k' v d : k <> k' -> get k' (set k v d) = get k' d.
Proof.
  intros Hne. induction d as [|[k0 v0] d IH]; simpl.
  - destruct (String.eqb k' k) eqn:E; auto.
    apply String.eqb_eq in E. congruence.
  - destruct (String.eqb k k0) eqn:E; simpl.
    + apply String.eqb_eq in E. subst k0.
      destruct (String.eqb k' k) eqn:E'; auto.
      apply String.eqb_eq in E'. congruence.
    + now rewrite IH.
Qed.

Lemma set_set_same k v v' d : set k v (set k v' d) = set k v d.
Proof.
  induction d as [|[k0 v0] d IH]; simpl.
  - now rewrite String.eqb_refl.
  - destruct (String.eqb k k0) eqn:E; simpl; rewrite E; congruence.
Qed.

Lemma mem_get k d : mem k d = true <-> exists v, get k d = Some v.
Proof.
  unfold mem. destruct (get k d); split; intros H; eauto; try discriminate.
  destruct H; discriminate.
Qed.

Lemma mem_false_get k d : mem k d = false <-> get k d = None.
Proof. unfold mem. destruct (get k d); split; congruence. Qed.

Lemma get_In k v d : get k d = Some v -> In (k, v) d.
Proof.
  induction d as [|[k0 v0] d IH]; simpl; [discriminate|].
  destruct (String.eqb k k0) eqn:E.
  - apply String.eqb_eq in E. intros [= ->]. subst. now left.
  - intros H. right. auto.
Qed.

Lemma get_not_in_keys k d : ~ In k (keys d) -> get k d = None.
Proof.
  induction d as [|[k0 v0] d IH]; simpl; auto.
  intros H. destruct (String.eqb k k0) eqn:E.
  - apply String.eqb_eq in E. subst. tauto.
  - apply IH. tauto.
Qed.

Lemma In_get k v d : wf d -> In (k, v) d -> get k d = Some v.
Proof.
  unfold wf. induction d as [|[k0 v0] d IH]; simpl; [tauto|].
  intros Hnd [H|H]; inversion Hnd as [|? ? Hk Hd]; subst.
  - injection H as -> ->. now rewrite String.eqb_refl.
  - destruct (String.eqb k k0) eqn:E; auto.
    apply String.eqb_eq in E. subst k0.
    exfalso. apply Hk. change k with (fst (k, v)). now apply in_map.
Qed.

Lemma keys_set_present k v d : mem k d = true -> keys (set k v d) = keys d.
Proof.
  unfold mem. induction d as [|[k0 v0] d IH]; simpl; [discriminate|].
  destruct (String.eqb k k0) eqn:E; simpl; auto.
  intros H. now rewrite IH.
Qed.

Lemma keys_set_absent k v d : mem k d = false -> keys (set k v d) = (keys d ++ [k])%list.
Proof.
  unfold mem. induction d as [|[k0 v0] d IH]; simpl; auto.
  destruct (String.eqb k k0) eqn:E; simpl; [discriminate|].
  intros H. now rewrite IH.
Qed.

Lemma wf_set k v d : wf d -> wf (set k v d).
Proof.
  unfold wf. intros H. destruct (mem k d) eqn:E.
  - now rewrite keys_set_present.
  - rewrite keys_set_absent by assumption.
    apply NoDup_app; auto.
    + constructor; [simpl; tauto | constructor].
    + intros x Hx [<-|[]]. apply mem_false_get in E.
      apply in_map_iff in Hx as [[k0 v0] [Hk Hin]]. simpl in Hk. subst k0.
      apply In_get in Hin; [congruence | assumption].
Qed.

Lemma keys_del_incl k d x : In x (keys (del k d)) -> In x (keys d).
Proof.
  induction d as [|[k0 v0] d IH]; simpl; auto.
  destruct (String.eqb k k0); simpl; tauto.
Qed.

Lemma wf_del k d : wf d -> wf (del k d).
Proof.
  unfold wf. induction d as [|[k0 v0] d IH]; simpl; auto.
  intros H. inversion H as [|? ? Hk Hd]; subst.
  destruct (String.eqb k k0); simpl; auto.
  constructor; auto. intros Hin. apply Hk. eapply keys_del_incl; eauto.
Qed.

Lemma get_del_same k d : wf d -> get k (del k d) = None.
Proof.
  unfold wf. induction d as [|[k0 v0] d IH]; simpl; auto.
  intros H. inversion H as [|? ? Hk Hd]; subst.
  destruct (String.eqb k k0) eqn:E; simpl.
  - apply String.eqb_eq in E. subst k0. now apply get_not_in_keys.
  - rewrite E. auto.
Qed.

Lemma get_del_other k k' d : k <> k' -> get k' (del k d) = get k' d.
Proof.
  intros Hne. induction d as [|[k0 v0] d IH]; simpl; auto.
  destruct (String.eqb k k0) eqn:E; simpl.
  - apply String.eqb_eq in E. subst k0.
    destruct (String.eqb k' k) eqn:E'; auto.
    apply String.eqb_eq in E'. congruence.
  - now rewrite IH.
Qed.
End DictFacts.

(* ------------------------------------------------------------------ *)
(** ** The helpers called by the operations *)

Lemma can_run_host a w w' : host w' = host w -> can_run a w' = can_run a w.
Proof. unfold can_run, on_host. now intros ->. Qed.

Lemma subprocess_run_eq a i w :
  subprocess_run a i w =
  if can_run a w then (inr tt, with_command (mk_command a i) w)
  else (inl (if existsb has_nul a then ValueError else FileNotFoundError), w).
Proof.
  unfold subprocess_run, can_run.
  destruct (existsb has_nul a), (on_host a w); reflexivity.
Qed.

Arguments can_run : simpl never.
Arguments subprocess_run : simpl never.

Lemma update_xray_users_eq users w :
  update_xray_users users w =
  match xray_outcome users w with
  | Some c =>
      if can_run restart_argv w
      then (inr true,
            mk_world (users_file w) (stats_file w) (Holds c)
                     (restart_command :: commands w) (errors w) (host w))
      else (inr false,
            mk_world (users_file w) (stats_file w) (Holds c)
                     (commands w) (xray_error :: errors w) (host w))
  | None => (inr false, with_error xray_error w)
  end.
Proof.
  unfold update_xray_users, xray_outcome, try_except, bind, load_xray, lift,
    save_xray, xray_writable, restart_xray.
  destruct (xray_file w) as [| |cfg] eqn:F; try reflexivity.
  destruct (update_inbounds users (inbounds cfg)); try reflexivity.
  rewrite F, subprocess_run_eq.
  rewrite (can_run_host _ w) by reflexivity.
  fold restart_argv. destruct (can_run restart_argv w); reflexivity.
Qed.

Lemma update_xray_users_total users w :
  exists b w',
    update_xray_users users w = (inr b, w')
    /\ users_file w' = users_file w /\ stats_file w' = stats_file w
    /\ host w' = host w.
Proof.
  rewrite update_xray_users_eq.
  destruct (xray_outcome users w); [destruct (can_run restart_argv w)|];
    eauto 7.
Qed.

Lemma update_user_traffic_total e u up down w :
  exists b w',
    update_user_traffic e u up down w = (inr b, w')
    /\ users_file w' = users_file w /\ xray_file w' = xray_file w
    /\ commands w' = commands w /\ host w' = host w.
Proof.
  unfold update_user_traffic, try_except, bind, _load_stats, stats_item.
  destruct (stats_file w) as [| |stats]; simpl; eauto 9.
  - repeat (rewrite String.eqb_refl; simpl). eauto 9.
  - destruct (mem u stats) eqn:E; simpl.
    + apply mem_get in E as [t E]. rewrite E. simpl.
      rewrite get_set_same. simpl. eauto 9.
    + repeat (rewrite get_set_same; simpl). eauto 9.
Qed.

Lemma reset_user_traffic_total e u w :
  exists b w',
    reset_user_traffic e u w = (inr b, w')
    /\ users_file w' = users_file w /\ xray_file w' = xray_file w
    /\ commands w' = commands w /\ host w' = host w.
Proof.
  unfold reset_user_traffic, try_except, bind, _load_stats.
  destruct (stats_file w) as [| |stats]; simpl; eauto 9.
  destruct (mem u stats); simpl; eauto 9.
Qed.

Arguments update_xray_users : simpl never.
Arguments update_user_traffic : simpl never.
Arguments reset_user_traffic : simpl never.

(** Replace each call of a helper by the value and world it yields. *)
Ltac run_helpers :=
  repeat match goal with
    | |- context [update_xray_users ?u ?w] =>
        let E := fresh "E" in
        destruct (update_xray_users_total u w) as (? & ? & E & ? & ? & ?);
        rewrite E; clear E; simpl
    | |- context [update_user_traffic ?e ?u ?a ?b ?w] =>
        let E := fresh "E" in
        destruct (update_user_traffic_total e u a b w)
          as (? & ? & E & ? & ? & ? & ?);
        rewrite E; clear E; simpl
    | |- context [reset_user_traffic ?e ?u ?w] =>
        let E := fresh "E" in
        destruct (reset_user_traffic_total e u w) as (? & ? & E & ? & ? & ? & ?);
        rewrite E; clear E; simpl
    end.

(** Replace each tool call by its two outcomes on the host of [w]. *)
Ltac run_tools w :=
  repeat match goal with
    | |- context [subprocess_run ?a ?i ?w0] =>
        rewrite (subprocess_run_eq a i w0);
        try rewrite (can_run_host a w w0) by reflexivity
    end.

Lemma load_users_eq w :
  users_file w <> Invalid -> _load_users w = (inr (stored_users w), w).
Proof.
  unfold _load_users, stored_users. intros H.
  destruct (users_file w); [reflexivity | now elim H | reflexivity].
Qed.

Ltac chase_users :=
  simpl in *;
  repeat match goal with
    | H : users_file ?a = _ |- context [users_file ?a] => rewrite H; clear H
    end.

(** The store effect of every operation is [store_step], and the value
    it returns after its first check says whether the tools it starts
    itself could be started; what the helpers it calls afterwards do
    plays no part.  Only [delete_user] starts a tool before it writes
    the store. *)
Lemma run_op_store o w :
  users_file w <> Invalid ->
  match store_step o (stored_users w) with
  | Some us =>
      result (run_op o) w = inr (own_tools_ok o w)
      /\ users_file (after (run_op o) w)
         = match o with
           | DeleteUser _ _ =>
               if own_tools_ok o w then Holds us else users_file w
           | _ => Holds us
           end
  | None => run_op o w = (inr false, w)
  end.
Proof.
  intros Hv. unfold result, after.
  destruct o; simpl;
    unfold add_user, delete_user, ban_user, unban_user, set_quota, change_uuid,
           try_except, bind, set_field;
    rewrite (load_users_eq w Hv); simpl.
  - destruct (mem username (stored_users w)); simpl; [reflexivity|].
    fold (useradd_argv username).
    destruct (String.eqb service "ssh"), (String.eqb service "xray"); simpl;
      run_tools w;
      try (destruct (can_run (useradd_argv username) w); simpl;
           [|split; reflexivity]; run_tools w;
           destruct (can_run ["chpasswd"] w); simpl; [|split; reflexivity]);
      run_helpers; split; auto; chase_users; reflexivity.
  - destruct (mem username (stored_users w)); simpl; [|reflexivity].
    fold (userdel_argv username). run_tools w.
    destruct (can_run (userdel_argv username) w); simpl; [|split; reflexivity].
    run_helpers; split; auto; chase_users; reflexivity.
  - unfold mem. destruct (get username (stored_users w)) as [r|]; simpl;
      [|reflexivity].
    rewrite get_set_same. simpl. rewrite set_set_same.
    fold (banip_argv username).
    destruct (String.eqb service "ssh"), (String.eqb service "xray"); simpl;
      run_tools w;
      try (destruct (can_run (banip_argv username) w); simpl;
           [|split; reflexivity]);
      run_helpers; split; auto; chase_users; reflexivity.
  - unfold mem. destruct (get username (stored_users w)) as [r|]; simpl;
      [|reflexivity].
    rewrite get_set_same. simpl. rewrite set_set_same.
    fold (unbanip_argv username).
    destruct (String.eqb service "ssh"), (String.eqb service "xray"); simpl;
      run_tools w;
      try (destruct (can_run (unbanip_argv username) w); simpl;
           [|split; reflexivity]);
      run_helpers; split; auto; chase_users; reflexivity.
  - unfold mem. destruct (get username (stored_users w)) as [r|]; simpl;
      [|reflexivity].
    split; reflexivity.
  - unfold mem. destruct (get username (stored_users w)) as [r|]; simpl;
      [|reflexivity].
    run_helpers; split; auto; chase_users; reflexivity.
Qed.

Lemma run_op_invalid o w :
  users_file w = Invalid ->
  result (run_op o) w = inr false
  /\ users_file (after (run_op o) w) = Invalid.
Proof.
  intros Hv. unfold result, after.
  destruct o; simpl;
    unfold add_user, delete_user, ban_user, unban_user, set_quota, change_uuid,
           try_except, bind, _load_users;
    rewrite Hv; simpl; auto.
Qed.

Lemma run_op_true o w :
  result (run_op o) w = inr true ->
  users_file w <> Invalid
  /\ exists us, store_step o (stored_users w) = Some us
                /\ users_file (after (run_op o) w) = Holds us.
Proof.
  intros H.
  assert (Hv : users_file w <> Invalid).
  { intros Hi. destruct (run_op_invalid o w Hi) as [Hr _]. congruence. }
  split; [assumption|].
  pose proof (run_op_store o w Hv) as Hs.
  destruct (store_step o (stored_users w)) as [us|].
  - exists us. destruct Hs as [Hr Hf]. split; [reflexivity|].
    rewrite Hr in H. injection H as H. rewrite H in Hf.
    destruct o; exact Hf.
  - unfold result in H. rewrite Hs in H. discriminate.
Qed.

Lemma run_op_true_tools o w :
  result (run_op o) w = inr true -> own_tools_ok o w = true.
Proof.
  intros H. destruct (run_op_true o w H) as (Hv & us & Hs & _).
  pose proof (run_op_store o w Hv) as Hst. rewrite Hs in Hst.
  destruct Hst as [Hr _]. congruence.
Qed.

(* ------------------------------------------------------------------ *)
(** ** add_user on a name already taken *)

(** C5. When the username is already a key of the stored user document,
    [add_user] returns [False] and the world it leaves is the world it
    found: users file, stats file, xray artifact, the list of external
    commands run and the error log are all as before. *)
Theorem add_user_existing_is_rejected
  (e : env) (username password service : string) (quota : option Z) (w : world)
  (Hpresent : mem username (stored_users w) = true) :
  add_user e username password service quota w = (inr false, w).
Proof.
  assert (Hv : users_file w <> Invalid).
  { intros Hi. unfold stored_users in Hpresent. rewrite Hi in Hpresent.
    discriminate. }
  pose proof (run_op_store (AddUser e username password service quota) w Hv) as Hs.
  simpl in Hs. now rewrite Hpresent in Hs.
Qed.

Lemma add_user_existing_is_rejected_witness :
  mem "alice" (stored_users world_alice_bob) = true
  /\ add_user env_2 "alice" "other" "ssh" None world_alice_bob
     = (inr false, world_alice_bob).
Proof.
  split; [reflexivity|].
  apply (add_user_existing_is_rejected env_2 "alice" "other" "ssh" None
           world_alice_bob).
  reflexivity.
Defined.

(* ------------------------------------------------------------------ *)
(** ** set_quota *)

Lemma user_field_set_same w' u k v r users :
  users_file w' = Holds (set u (set k v r) users) ->
  user_field w' u k = Some v.
Proof.
  intros H. unfold user_field, stored_users. rewrite H.
  rewrite get_set_same. apply get_set_same.
Qed.

Lemma user_field_set_other w w' u k k' v r users :
  users_file w = Holds users -> get u users = Some r ->
  users_file w' = Holds (set u (set k v r) users) ->
  k <> k' ->
  user_field w' u k' = user_field w u k'.
Proof.
  intros Hw Hr H Hne. unfold user_field, stored_users. rewrite H, Hw, Hr.
  rewrite get_set_same. now apply get_set_other.
Qed.

Lemma set_quota_eq username service quota w :
  set_quota username service quota w =
  match users_file w with
  | Invalid => (inr false, with_error "Error setting quota" w)
  | _ =>
      match get username (stored_users w) with
      | Some r =>
          (inr true,
           mk_world (Holds (set username (set "quota" (VInt quota) r)
                                (stored_users w)))
                    (stats_file w) (xray_file w) (commands w) (errors w) (host w))
      | None => (inr false, w)
      end
  end.
Proof.
  unfold set_quota, try_except, bind, _load_users, set_field, stored_users, mem.
  destruct (users_file w) as [| |users]; simpl; try reflexivity.
  destruct (get username users); reflexivity.
Qed.

(** C10. A [set_quota] that returns [True] leaves the target record with
    the new quota and every other field as it was, leaves every other
    record and the order of the users as they were, and does not touch
    the usage counters, the xray artifact, the external commands or the
    error log; the [service] argument plays no part in the outcome. *)
Theorem set_quota_changes_only_quota
  (username service : string) (quota : Z) (w : world)
  (Hok : result (set_quota username service quota) w = inr true) :
  let w' := after (set_quota username service quota) w in
  user_field w' username "quota" = Some (VInt quota)
  /\ (forall field, field <> "quota" ->
                    user_field w' username field = user_field w username field)
  /\ (forall other, other <> username ->
                    get other (stored_users w') = get other (stored_users w))
  /\ keys (stored_users w') = keys (stored_users w)
  /\ stats_file w' = stats_file w
  /\ xray_file w' = xray_file w
  /\ commands w' = commands w
  /\ errors w' = errors w
  /\ (forall service', set_quota username service' quota w
                       = set_quota username service quota w).
Proof.
  assert (Hmk : forall u s x c er h,
            stored_users (mk_world (Holds u) s x c er h) = u)
    by reflexivity.
  cbv zeta. unfold result, after in *. rewrite set_quota_eq in *.
  destruct (users_file w) eqn:F;
    destruct (get username (stored_users w)) as [r|] eqn:G;
    simpl in *; try discriminate;
    unfold user_field; rewrite Hmk, G.
  all: repeat split; auto.
  all: try (rewrite get_set_same; apply get_set_same).
  all: try (intros field Hf; rewrite get_set_same;
            apply get_set_other; congruence).
  all: try (intros other Ho; apply get_set_other; congruence).
  all: try (apply keys_set_present; unfold mem; now rewrite G).
  all: intros service'; now rewrite set_quota_eq, F, G.
Qed.

Lemma set_quota_changes_only_quota_witness :
  result (set_quota "alice" "ssh" 20) world_alice_bob = inr true
  /\ user_field (after (set_quota "alice" "ssh" 20) world_alice_bob)
                "alice" "quota" = Some (VInt 20)
  /\ user_field (after (set_quota "alice" "ssh" 20) world_alice_bob)
                "alice" "uuid" = Some (VStr "uuid-alice").
Proof.
  split; [reflexivity|].
  destruct (set_quota_changes_only_quota "alice" "ssh" 20 world_alice_bob
              eq_refl) as (Hq & Hother & _).
  split; [exact Hq|].
  rewrite (Hother "uuid"); [reflexivity | discriminate].
Defined.

(* ------------------------------------------------------------------ *)
(** ** ban_user and unban_user: the stored flags *)

Lemma ban_fields e u s w :
  result (ban_user e u s) w = inr true ->
  user_field (after (ban_user e u s) w) u "banned" = Some (VBool true)
  /\ user_field (after (ban_user e u s) w) u "banned_at" = Some (VStr (now e)).
Proof.
  intros H. destruct (run_op_true (BanUser e u s) w H) as (Hv & us & Hs & Hf).
  simpl in Hs, Hf. destruct (get u (stored_users w)) as [r|]; [|discriminate].
  injection Hs as <-. unfold user_field, stored_users. rewrite Hf.
  rewrite get_set_same. split.
  - rewrite get_set_other by discriminate. apply get_set_same.
  - apply get_set_same.
Qed.

Lemma unban_fields u s w :
  result (unban_user u s) w = inr true ->
  user_field (after (unban_user u s) w) u "banned" = Some (VBool false)
  /\ user_field (after (unban_user u s) w) u "banned_at" = Some VNone.
Proof.
  intros H. destruct (run_op_true (UnbanUser u s) w H) as (Hv & us & Hs & Hf).
  simpl in Hs, Hf. destruct (get u (stored_users w)) as [r|]; [|discriminate].
  injection Hs as <-. unfold user_field, stored_users. rewrite Hf.
  rewrite get_set_same. split.
  - rewrite get_set_other by discriminate. apply get_set_same.
  - apply get_set_same.
Qed.

(** C9, as the code has it.  Every [ban_user] that returns [True] stores
    [banned = True] and [banned_at =] the time of that call, whether or
    not the user was banned before; every [unban_user] that returns
    [True] stores [banned = False] and [banned_at = None]. *)
Theorem ban_stamps_every_call
  (e : env) (u s : string) (w : world) :
  (result (ban_user e u s) w = inr true ->
   user_field (after (ban_user e u s) w) u "banned" = Some (VBool true)
   /\ user_field (after (ban_user e u s) w) u "banned_at" = Some (VStr (now e)))
  /\ (result (unban_user u s) w = inr true ->
      user_field (after (unban_user u s) w) u "banned" = Some (VBool false)
      /\ user_field (after (unban_user u s) w) u "banned_at" = Some VNone).
Proof.
  split; [apply ban_fields | apply unban_fields].
Qed.

Lemma ban_stamps_every_call_witness :
  result (ban_user env_2 "alice" "xray") world_alice_banned = inr true
  /\ result (unban_user "alice" "xray") world_alice_banned = inr true
  /\ user_field (after (ban_user env_2 "alice" "xray") world_alice_banned)
                "alice" "banned_at" = Some (VStr "2024-05-02T11:30:00")
  /\ user_field (after (unban_user "alice" "xray") world_alice_banned)
                "alice" "banned_at" = Some VNone.
Proof.
  destruct (ban_stamps_every_call env_2 "alice" "xray" world_alice_banned)
    as [Hban Hunban].
  split; [reflexivity|]. split; [reflexivity|]. split.
  - exact (proj2 (Hban eq_refl)).
  - exact (proj2 (Hunban eq_refl)).
Defined.

(** C9, as stated, fails: alice was banned on the first day; banning her
    again on the second day replaces the stored [banned_at]. *)
Lemma banned_at_is_overwritten : ~ banned_at_on_transition.
Proof.
  intros H.
  destruct (H env_2 "alice" "xray" world_alice_banned eq_refl) as [_ Hkeep].
  specialize (Hkeep eq_refl). vm_compute in Hkeep. discriminate.
Qed.

(* ------------------------------------------------------------------ *)
(** ** What decides the value an operation returns *)



Lemma if_ssh_true (s : string) (b : bool) :
  (if String.eqb s "ssh" then b else true) = true <-> (s = "ssh" -> b = true).
Proof.
  destruct (String.eqb s "ssh") eqn:E.
  - apply String.eqb_eq in E. tauto.
  - apply String.eqb_neq in E. tauto.
Qed.



(* ------------------------------------------------------------------ *)
(** ** check_user_quota *)

Lemma get_user_quota_eq username w :
  users_file w <> Invalid -> users_file w <> Missing ->
  _get_user_quota username w =
  (inr (match user_field w username "quota" with
        | Some q => q
        | None => VNone
        end), w).
Proof.
  unfold _get_user_quota, try_except, user_field, stored_users.
  destruct (users_file w) as [| |users]; try congruence. intros _ _.
  destruct (get username users); reflexivity.
Qed.

Lemma get_user_quota_unset username w :
  user_field w username "quota" = None
  \/ user_field w username "quota" = Some VNone ->
  exists w', _get_user_quota username w = (inr VNone, w').
Proof.
  unfold _get_user_quota, try_except, user_field, stored_users.
  destruct (users_file w) as [| |users]; eauto.
  destruct (get username users) as [r|]; simpl; eauto.
  intros [H|H]; rewrite H; eauto.
Qed.

(** C2, as the code has it.  For a user that has an entry in the stats
    file, [check_user_quota] answers [False] ("over quota") exactly when
    the user's [upload + download] has reached [quota * 2^30]: with a
    stored integer quota [q] and counters [t], the answer is [False] iff
    [upload t + download t >= q * 2^30]; in particular it is [True] one
    byte below the limit and [False] at the limit.  For a user whose
    quota is [None] or who has no quota at all the answer is always
    [True] ("not over quota"), whatever the files hold. *)
Theorem check_user_quota_threshold (username : string) (w : world) :
  (forall (q : Z) (stats : stats_doc) (t : traffic),
      user_field w username "quota" = Some (VInt q) ->
      stats_file w = Holds stats ->
      get username stats = Some t ->
      (result (check_user_quota username) w = inr false <->
       upload t + download t >= q * 2 ^ 30)
      /\ (upload t + download t = q * 2 ^ 30 - 1 ->
          result (check_user_quota username) w = inr true)
      /\ (upload t + download t = q * 2 ^ 30 ->
          result (check_user_quota username) w = inr false))
  /\ (user_field w username "quota" = None
      \/ user_field w username "quota" = Some VNone ->
      result (check_user_quota username) w = inr true).
Proof.
  split.
  - intros q stats t Hq Hs Ht.
    assert (Hv : users_file w <> Invalid /\ users_file w <> Missing).
    { unfold user_field, stored_users in Hq.
      destruct (users_file w); simpl in Hq; split; congruence. }
    assert (Hr : result (check_user_quota username) w
                 = inr (upload t + download t <? q * 2 ^ 30)).
    { unfold result, check_user_quota, try_except, bind, _load_stats, stats_item.
      rewrite Hs. simpl. unfold mem. rewrite Ht. simpl.
      rewrite get_user_quota_eq by tauto. rewrite Hq. simpl.
      do 2 f_equal. lia. }
    rewrite Hr. repeat split.
    + intros [= H]. apply Z.ltb_ge in H. lia.
    + intros H. do 2 f_equal. apply Z.ltb_ge. lia.
    + intros H. f_equal. apply Z.ltb_lt. lia.
    + intros H. f_equal. apply Z.ltb_ge. lia.
  - intros Hq. unfold result, check_user_quota, try_except, bind, _load_stats.
    destruct (stats_file w) as [| |stats]; simpl; auto.
    destruct (mem username stats) eqn:E; simpl; auto.
    unfold stats_item. apply mem_get in E as [t E]. rewrite E. simpl.
    destruct (get_user_quota_unset username w Hq) as [w' Hw'].
    now rewrite Hw'.
Qed.

Lemma check_user_quota_threshold_witness :
  user_field world_at_quota "alice" "quota" = Some (VInt 5)
  /\ result (check_user_quota "alice") world_at_quota = inr false
  /\ result (check_user_quota "alice") world_below_quota = inr true
  /\ user_field world_alice_bob "bob" "quota" = Some VNone
  /\ result (check_user_quota "bob") world_alice_bob = inr true.
Proof.
  destruct (check_user_quota_threshold "alice" world_at_quota) as [Hat _].
  destruct (check_user_quota_threshold "alice" world_below_quota) as [Hbelow _].
  destruct (check_user_quota_threshold "bob" world_alice_bob) as [_ Hnone].
  split; [reflexivity|]. split.
  - refine (proj2 (proj2 (Hat 5
      [("alice", mk_traffic (4 * 2 ^ 30) (2 ^ 30) "2024-05-01T10:00:01")]
      (mk_traffic (4 * 2 ^ 30) (2 ^ 30) "2024-05-01T10:00:01")
      eq_refl eq_refl eq_refl)) _).
    reflexivity.
  - split.
    + refine (proj1 (proj2 (Hbelow 5
        [("alice", mk_traffic (4 * 2 ^ 30) (2 ^ 30 - 1) "2024-05-01T10:00:01")]
        (mk_traffic (4 * 2 ^ 30) (2 ^ 30 - 1) "2024-05-01T10:00:01")
        eq_refl eq_refl eq_refl)) _).
      reflexivity.
    + split; [reflexivity|]. apply Hnone. right. reflexivity.
Defined.

(** C2, as stated, fails: alice has quota 0 and no entry in the stats
    file, so her traffic is 0 and has reached [0 * 2^30]; the check
    returns at [if username not in stats] with [True] ("not over
    quota") before it reads the quota. *)
Lemma untracked_user_at_zero_quota : ~ over_quota_at_threshold.
Proof.
  intros H.
  destruct (H "alice" world_quota_zero_untracked 0 eq_refl) as [_ Hover].
  assert (Hge : usage_total world_quota_zero_untracked "alice" >= 0 * 2 ^ 30)
    by (vm_compute; discriminate).
  specialize (Hover Hge). vm_compute in Hover. discriminate.
Qed.

(* ------------------------------------------------------------------ *)
(** ** How the users file is written *)

(** C6, as the code has it.  [_save_users] (and [_save_stats] in the
    same way) opens the canonical file itself for writing, which empties
    it, and then dumps the whole document into it: the states that exist
    during the write are the old file, the emptied file and the complete
    new file, in this order.  Once the write has run to its end the file
    holds the complete document, and nothing but that one file has
    changed at any point. *)
Theorem save_users_truncates_in_place (users : users_doc) (stats : stats_doc)
  (w : world) :
  observable_states (_save_users_steps users) w
  = [w; with_users Invalid w; after (_save_users users) w]
  /\ users_file (after (_save_users users) w) = Holds users
  /\ (forall s, In s (observable_states (_save_users_steps users) w) ->
                stats_file s = stats_file w /\ xray_file s = xray_file w
                /\ commands s = commands w /\ errors s = errors w)
  /\ observable_states (_save_stats_steps stats) w
     = [w; with_stats Invalid w; after (_save_stats stats) w]
  /\ stats_file (after (_save_stats stats) w) = Holds stats.
Proof.
  repeat split; try reflexivity;
    simpl in H; destruct H as [<-|[<-|[<-|[]]]]; reflexivity.
Qed.

(** C6, as stated, fails: while alice's record is being rewritten there
    is a state in which users.json is neither the old document nor the
    new one (it has been emptied and [json.load] rejects it). *)
Lemma save_users_is_interruptible : ~ save_is_atomic.
Proof.
  intros H.
  destruct (H (stored_users world_alice_bob) world_alice
              (with_users Invalid world_alice)) as [Hold|Hnew].
  - simpl. auto.
  - vm_compute in Hold. discriminate.
  - vm_compute in Hnew. discriminate.
Qed.

(* ------------------------------------------------------------------ *)
(** ** Regenerating the xray artifact *)

Lemma update_inbound_protocol users i i' :
  update_inbound users i = inr i' -> protocol i' = protocol i.
Proof.
  unfold update_inbound.
  destruct (String.eqb (protocol i) "vmess");
    [destruct (comprehension vmess_entry users users); intros [= <-]; reflexivity|].
  destruct (String.eqb (protocol i) "vless");
    [destruct (comprehension vless_entry users users); intros [= <-]; reflexivity|].
  destruct (String.eqb (protocol i) "trojan");
    [destruct (comprehension trojan_entry users users); intros [= <-]; reflexivity|].
  now intros [= <-].
Qed.

Lemma update_inbound_idem users i i' :
  update_inbound users i = inr i' -> update_inbound users i' = inr i'.
Proof.
  intros H. pose proof (update_inbound_protocol users i i' H) as Hp.
  revert H. unfold update_inbound. rewrite Hp.
  destruct (String.eqb (protocol i) "vmess");
    [destruct (comprehension vmess_entry users users); intros [= <-]; reflexivity|].
  destruct (String.eqb (protocol i) "vless");
    [destruct (comprehension vless_entry users users); intros [= <-]; reflexivity|].
  destruct (String.eqb (protocol i) "trojan");
    [destruct (comprehension trojan_entry users users); intros [= <-]; reflexivity|].
  now intros [= <-].
Qed.

Lemma update_inbounds_idem users l l' :
  update_inbounds users l = inr l' -> update_inbounds users l' = inr l'.
Proof.
  revert l'. induction l as [|i l IH]; simpl; intros l'.
  - now intros [= <-].
  - destruct (update_inbound users i) as [|i'] eqn:Ei; [discriminate|].
    destruct (update_inbounds users l) as [|r] eqn:El; [discriminate|].
    intros [= <-]. simpl.
    rewrite (update_inbound_idem users i i' Ei).
    now rewrite (IH r eq_refl).
Qed.

Lemma xray_file_after_update users w :
  xray_file (after (update_xray_users users) w) =
  match xray_outcome users w with
  | Some c => Holds c
  | None => xray_file w
  end.
Proof.
  unfold after. rewrite update_xray_users_eq.
  destruct (xray_outcome users w); [destruct (can_run restart_argv w)|];
    reflexivity.
Qed.

Lemma configure_xray_eq xport protocols w :
  configure_xray xport protocols w =
  if xray_writable w
  then
    if can_run restart_argv w
    then (inr true,
          mk_world (users_file w) (stats_file w)
                   (Holds (xray_layout xport protocols))
                   (restart_command :: commands w) (errors w) (host w))
    else (inr false,
          mk_world (users_file w) (stats_file w)
                   (Holds (xray_layout xport protocols))
                   (commands w) ("Error configuring Xray" :: errors w) (host w))
  else (inr false, with_error "Error configuring Xray" w).
Proof.
  unfold configure_xray, xray_layout, try_except, bind, save_xray, restart_xray.
  destruct (enabled protocols "vmess" true),
           (enabled protocols "vless" false),
           (enabled protocols "trojan" false); simpl;
    (destruct (xray_writable w); [|reflexivity]);
    rewrite subprocess_run_eq; rewrite (can_run_host _ w) by reflexivity;
    fold restart_argv; destruct (can_run restart_argv w); reflexivity.
Qed.

Lemma xray_file_after_configure xport protocols w :
  xray_file (after (configure_xray xport protocols) w) =
  if xray_writable w then Holds (xray_layout xport protocols) else xray_file w.
Proof.
  unfold after. rewrite configure_xray_eq.
  destruct (xray_writable w); [destruct (can_run restart_argv w)|]; reflexivity.
Qed.

Lemma host_after_configure xport protocols w :
  host (after (configure_xray xport protocols) w) = host w.
Proof.
  unfold after. rewrite configure_xray_eq.
  destruct (xray_writable w); [destruct (can_run restart_argv w)|]; reflexivity.
Qed.

(** C8. Running [update_xray_users] a second time on the same user
    mapping leaves the artifact exactly as the first run left it, and so
    does running [configure_xray] a second time with the same port and
    protocol toggles.  The file's bytes are [json.dump] of the document
    compared here. *)
Theorem regeneration_is_idempotent
  (users : users_doc) (xport : Z) (protocols : dict (dict value)) (w : world) :
  xray_file (after (update_xray_users users) (after (update_xray_users users) w))
  = xray_file (after (update_xray_users users) w)
  /\ xray_file (after (configure_xray xport protocols)
                      (after (configure_xray xport protocols) w))
     = xray_file (after (configure_xray xport protocols) w).
Proof.
  split.
  2: { rewrite (xray_file_after_configure xport protocols
                  (after (configure_xray xport protocols) w)).
       unfold xray_writable at 1.
       rewrite host_after_configure, xray_file_after_configure.
       unfold xray_writable.
       destruct (xray_file w) eqn:F; try reflexivity.
       destruct (xray_dir (host w)); reflexivity. }
  rewrite (xray_file_after_update users (after (update_xray_users users) w)).
  unfold xray_outcome at 1.
  rewrite (xray_file_after_update users w).
  unfold xray_outcome.
  destruct (xray_file w) as [| |cfg] eqn:F; try reflexivity.
  destruct (update_inbounds users (inbounds cfg)) as [|l] eqn:E.
  - now rewrite E.
  - simpl. now rewrite (update_inbounds_idem users _ l E).
Qed.

(* ------------------------------------------------------------------ *)
(** ** The client list *)

Lemma user_uuid_get users u r :
  get u users = Some r ->
  user_uuid users u = match get "uuid" r with
                      | Some v => inr v
                      | None => inl (KeyError "uuid")
                      end.
Proof. unfold user_uuid. now intros ->. Qed.

(** When the comprehension does not raise, it yields the list the
    specification describes. *)
Lemma comprehension_inr entry users items cs :
  wf users -> incl items users ->
  comprehension entry users items = inr cs ->
  cs = active_clients entry items.
Proof.
  intros Hwf. revert cs.
  induction items as [|[u r] rest IH]; simpl; intros cs Hincl.
  - now intros [= <-].
  - assert (Hu : get u users = Some r)
      by (apply In_get; [assumption | apply Hincl; now left]).
    assert (Hrest : incl rest users)
      by (intros x Hx; apply Hincl; now right).
    rewrite (user_uuid_get users u r Hu). unfold unbanned.
    destruct (negb match get "banned" r with
                   | Some v => truthy v
                   | None => false
                   end).
    + destruct (get "uuid" r) as [id|]; [|discriminate].
      destruct (comprehension entry users rest) as [|cs'] eqn:E; [discriminate|].
      intros [= <-]. f_equal. now apply IH.
    + intros H. destruct (get "uuid" r); now apply IH.
Qed.

(** It raises as soon as one user that is not banned has no ['uuid']. *)
Lemma comprehension_tokenless entry users items u r :
  wf users -> incl items users ->
  In (u, r) items -> unbanned r = true -> get "uuid" r = None ->
  exists e, comprehension entry users items = inl e.
Proof.
  intros Hwf. induction items as [|[u0 r0] rest IH]; simpl; intros Hincl Hin Hub Hno.
  - contradiction.
  - assert (Hu0 : get u0 users = Some r0)
      by (apply In_get; [assumption | apply Hincl; now left]).
    assert (Hrest : incl rest users)
      by (intros x Hx; apply Hincl; now right).
    rewrite (user_uuid_get users u0 r0 Hu0).
    destruct Hin as [[= -> ->]|Hin].
    + unfold unbanned in Hub. rewrite Hub, Hno. eauto.
    + destruct (IH Hrest Hin Hub Hno) as [e He]. rewrite He.
      destruct (negb _); eauto.
      destruct (get "uuid" r0); eauto.
Qed.

Lemma In_active_clients entry users c :
  In c (active_clients entry users) ->
  exists u r id,
    In (u, r) users /\ unbanned r = true /\ get "uuid" r = Some id
    /\ c = entry id.
Proof.
  induction users as [|[u r] rest IH]; simpl; [contradiction|].
  destruct (get "uuid" r) as [id|] eqn:Eid.
  - destruct (unbanned r) eqn:Eb.
    + intros [<-|H].
      * exists u, r, id. auto.
      * destruct (IH H) as (u' & r' & id' & ? & ?). exists u', r', id'. auto.
    + intros H. destruct (IH H) as (u' & r' & id' & ? & ?).
      exists u', r', id'. auto.
  - intros H. destruct (IH H) as (u' & r' & id' & ? & ?).
    exists u', r', id'. auto.
Qed.

Lemma active_clients_In entry users u r id :
  In (u, r) users -> unbanned r = true -> get "uuid" r = Some id ->
  In (entry id) (active_clients entry users).
Proof.
  induction users as [|[u0 r0] rest IH]; simpl; [contradiction|].
  intros [[= -> ->]|Hin] Hub Hid.
  - rewrite Hid, Hub. now left.
  - destruct (get "uuid" r0); [destruct (unbanned r0)|]; simpl; auto.
Qed.

Lemma update_inbounds_In users l l' i' :
  update_inbounds users l = inr l' -> In i' l' ->
  exists i, In i l /\ update_inbound users i = inr i'.
Proof.
  revert l'. induction l as [|i l IH]; simpl; intros l'.
  - intros [= <-] [].
  - destruct (update_inbound users i) as [|j] eqn:Ei; [discriminate|].
    destruct (update_inbounds users l) as [|r] eqn:El; [discriminate|].
    intros [= <-] [<-|Hin].
    + exists i. auto.
    + destruct (IH r eq_refl Hin) as (i0 & ? & ?). exists i0. auto.
Qed.

Lemma update_inbound_managed users i i' :
  update_inbound users i = inr i' -> managed i' = true ->
  exists entry, is_entry entry
                /\ comprehension entry users users = inr (clients i').
Proof.
  intros H Hm. pose proof (update_inbound_protocol users i i' H) as Hp.
  revert H. unfold managed in Hm. rewrite Hp in Hm. unfold update_inbound, is_entry.
  destruct (String.eqb (protocol i) "vmess").
  { destruct (comprehension vmess_entry users users) eqn:E; intros [= <-].
    exists vmess_entry. auto. }
  destruct (String.eqb (protocol i) "vless").
  { destruct (comprehension vless_entry users users) eqn:E; intros [= <-].
    exists vless_entry. auto. }
  destruct (String.eqb (protocol i) "trojan").
  { destruct (comprehension trojan_entry users users) eqn:E; intros [= <-].
    exists trojan_entry. auto. }
  discriminate.
Qed.

Lemma carries_entry entry t id :
  is_entry entry -> (carries t (entry id) <-> id = t).
Proof.
  unfold carries.
  intros [-> | [-> | ->]]; simpl; split; intros H;
    try (destruct H as [H|H]; congruence); subst; auto.
Qed.

(** C3, where the code departs from it.  bob was created for SSH and has
    no ['uuid']; alice was created for xray afterwards.  The client list
    the specification describes for this mapping is alice's entry alone,
    but [update_xray_users] raises [KeyError] on bob's record, returns
    [False] and leaves the artifact as it was: alice's token is in no
    client list. *)
Theorem tokenless_user_blocks_regeneration :
  let users := stored_users world_bob_alice in
  keys users = ["bob"; "alice"]
  /\ active_clients vmess_entry users = [vmess_entry (VStr "uuid-alice")]
  /\ comprehension vmess_entry users users = inl (KeyError "uuid")
  /\ result (update_xray_users users) world_bob_alice = inr false
  /\ xray_file (after (update_xray_users users) world_bob_alice)
     = xray_file world_configured
  /\ xray_file world_configured
     = Holds (mk_xray [mk_inbound 443 "vmess" [] "ws" "/vmess"] ["freedom"]).
Proof.
  repeat split; reflexivity.
Qed.

(* ------------------------------------------------------------------ *)
(** ** ban_user and unban_user: the artifact *)

Lemma count_occ_cons_lt (l : list string) (x : string) :
  (count_occ string_dec l x < count_occ string_dec (x :: l) x)%nat.
Proof. rewrite count_occ_cons_eq by reflexivity. apply le_n. Qed.

(** An [update_xray_users] that logs nothing has rewritten the artifact. *)
Lemma apply_not_failed users' w0 w :
  errors w0 = errors w ->
  ~ apply_failed w (after (update_xray_users users') w0) ->
  exists cfg l,
    xray_file w0 = Holds cfg
    /\ update_inbounds users' (inbounds cfg) = inr l
    /\ xray_file (after (update_xray_users users') w0)
       = Holds (mk_xray l (outbounds cfg))
    /\ users_file (after (update_xray_users users') w0) = users_file w0.
Proof.
  intros He. unfold after, apply_failed. rewrite update_xray_users_eq.
  unfold xray_outcome.
  destruct (xray_file w0) as [| |cfg]; simpl; rewrite ?He.
  - intros Hok. exfalso. apply Hok. apply count_occ_cons_lt.
  - intros Hok. exfalso. apply Hok. apply count_occ_cons_lt.
  - destruct (update_inbounds users' (inbounds cfg)) as [|l] eqn:E; simpl;
      rewrite ?He.
    + intros Hok. exfalso. apply Hok. apply count_occ_cons_lt.
    + destruct (can_run restart_argv w0); simpl; rewrite ?He.
      * intros _. exists cfg, l. auto.
      * intros Hok. exfalso. apply Hok. apply count_occ_cons_lt.
Qed.

Lemma ban_user_xray_eq e u w r :
  users_file w <> Invalid -> get u (stored_users w) = Some r ->
  let users' := set u (set "banned_at" (VStr (now e))
                         (set "banned" (VBool true) r)) (stored_users w) in
  ban_user e u "xray" w =
  (inr true,
   after (update_xray_users users')
         (mk_world (Holds users') (stats_file w) (xray_file w)
                   (commands w) (errors w) (host w))).
Proof.
  intros Hv Hr. unfold ban_user, try_except, bind, set_field, after.
  rewrite (load_users_eq w Hv). unfold mem. rewrite Hr. simpl.
  rewrite get_set_same. simpl. rewrite set_set_same.
  destruct (update_xray_users_total
              (set u (set "banned_at" (VStr (now e)) (set "banned" (VBool true) r))
                   (stored_users w))
              (mk_world
                 (Holds (set u (set "banned_at" (VStr (now e))
                                  (set "banned" (VBool true) r)) (stored_users w)))
                 (stats_file w) (xray_file w) (commands w) (errors w) (host w)))
    as (b & w' & E & _).
  unfold with_users at 1 2. simpl. rewrite E. reflexivity.
Qed.

Lemma unban_user_xray_eq u w r :
  users_file w <> Invalid -> get u (stored_users w) = Some r ->
  let users' := set u (set "banned_at" VNone
                         (set "banned" (VBool false) r)) (stored_users w) in
  unban_user u "xray" w =
  (inr true,
   after (update_xray_users users')
         (mk_world (Holds users') (stats_file w) (xray_file w)
                   (commands w) (errors w) (host w))).
Proof.
  intros Hv Hr. unfold unban_user, try_except, bind, set_field, after.
  rewrite (load_users_eq w Hv). unfold mem. rewrite Hr. simpl.
  rewrite get_set_same. simpl. rewrite set_set_same.
  destruct (update_xray_users_total
              (set u (set "banned_at" VNone (set "banned" (VBool false) r))
                   (stored_users w))
              (mk_world
                 (Holds (set u (set "banned_at" VNone
                                  (set "banned" (VBool false) r)) (stored_users w)))
                 (stats_file w) (xray_file w) (commands w) (errors w) (host w)))
    as (b & w' & E & _).
  unfold with_users at 1 2. simpl. rewrite E. reflexivity.
Qed.

Lemma user_field_record w u k v :
  user_field w u k = Some v ->
  exists r, get u (stored_users w) = Some r /\ get k r = Some v.
Proof.
  unfold user_field. destruct (get u (stored_users w)) as [r|]; [|discriminate].
  eauto.
Qed.

Lemma stored_users_holds w users :
  users_file w = Holds users -> stored_users w = users.
Proof. unfold stored_users. now intros ->. Qed.

Lemma ban_applied_absent e u t w :
  wf (stored_users w) ->
  user_field w u "uuid" = Some t ->
  (forall u', u' <> u -> user_field w u' "uuid" <> Some t) ->
  result (ban_user e u "xray") w = inr true ->
  ~ apply_failed w (after (ban_user e u "xray") w) ->
  token_absent t (after (ban_user e u "xray") w)
  /\ user_field (after (ban_user e u "xray") w) u "uuid" = Some t.
Proof.
  intros Hwf Ht Huniq Hres Hok.
  destruct (run_op_true (BanUser e u "xray") w Hres) as (Hv & _).
  destruct (user_field_record w u "uuid" t Ht) as (r & Hr & Hid).
  pose proof (ban_user_xray_eq e u w r Hv Hr) as Heq. cbv zeta in Heq.
  unfold after in Hok |- *. rewrite Heq in Hok |- *. simpl snd in Hok |- *.
  set (users' := set u (set "banned_at" (VStr (now e))
                          (set "banned" (VBool true) r)) (stored_users w)) in *.
  pose proof (fun H => apply_not_failed _ _ _ H Hok) as Hap.
  destruct (Hap eq_refl) as (cfg & l & Hcfg & Hl & Hx & Hu). clear Hap.
  simpl in Hcfg, Hu.
  assert (Hwf' : wf users') by (apply wf_set; assumption).
  split.
  - intros cfg' i c Hx' Hi Hm Hc Hcar.
    rewrite Hx in Hx'. injection Hx' as <-. simpl in Hi.
    destruct (update_inbounds_In users' _ l i Hl Hi) as (i0 & _ & Hi0).
    destruct (update_inbound_managed users' i0 i Hi0 Hm) as (entry & Hentry & Hcomp).
    apply (comprehension_inr entry users' users' _ Hwf' (incl_refl _)) in Hcomp.
    rewrite Hcomp in Hc.
    destruct (In_active_clients entry users' c Hc)
      as (u' & r' & id & Hin & Hub & Hid' & ->).
    apply (carries_entry entry t id Hentry) in Hcar. subst id.
    apply (In_get u' r' users' Hwf') in Hin.
    destruct (string_dec u' u) as [->|Hne].
    + unfold users' in Hin. rewrite get_set_same in Hin. injection Hin as <-.
      unfold unbanned in Hub.
      rewrite get_set_other in Hub by discriminate.
      rewrite get_set_same in Hub. discriminate.
    + unfold users' in Hin. rewrite get_set_other in Hin by congruence.
      apply (Huniq u' Hne). unfold user_field. now rewrite Hin.
  - unfold user_field. rewrite (stored_users_holds _ users' Hu).
    unfold users'. rewrite get_set_same.
    now rewrite !get_set_other by discriminate.
Qed.

Lemma unban_applied_present u t w :
  user_field w u "uuid" = Some t ->
  wf (stored_users w) ->
  result (unban_user u "xray") w = inr true ->
  ~ apply_failed w (after (unban_user u "xray") w) ->
  token_present t (after (unban_user u "xray") w).
Proof.
  intros Ht Hwf Hres Hok.
  destruct (run_op_true (UnbanUser u "xray") w Hres) as (Hv & _).
  destruct (user_field_record w u "uuid" t Ht) as (r & Hr & Hid).
  pose proof (unban_user_xray_eq u w r Hv Hr) as Heq. cbv zeta in Heq.
  unfold after in Hok |- *. rewrite Heq in Hok |- *. simpl snd in Hok |- *.
  set (users' := set u (set "banned_at" VNone
                          (set "banned" (VBool false) r)) (stored_users w)) in *.
  pose proof (fun H => apply_not_failed _ _ _ H Hok) as Hap.
  destruct (Hap eq_refl) as (cfg & l & Hcfg & Hl & Hx & Hu). clear Hap.
  assert (Hwf' : wf users') by (apply wf_set; assumption).
  exists (mk_xray l (outbounds cfg)). split; [assumption|].
  simpl. intros i Hi Hm.
  destruct (update_inbounds_In users' _ l i Hl Hi) as (i0 & _ & Hi0).
  destruct (update_inbound_managed users' i0 i Hi0 Hm) as (entry & Hentry & Hcomp).
  apply (comprehension_inr entry users' users' _ Hwf' (incl_refl _)) in Hcomp.
  exists (entry t). split.
  - rewrite Hcomp.
    apply (active_clients_In entry users' u
             (set "banned_at" VNone (set "banned" (VBool false) r)) t).
    + apply get_In. unfold users'. apply get_set_same.
    + unfold unbanned. rewrite get_set_other by discriminate.
      now rewrite get_set_same.
    + now rewrite !get_set_other by discriminate.
  - now apply carries_entry.
Qed.

(** X25.  Let user [u] carry token [t], let no other
    user carry the same token, and let [ban_user(u, 'xray')] return
    [True].  If the [update_xray_users] it called did not fail, then no
    client list of a vmess, vless or trojan inbound of the artifact
    holds [t] afterwards.  If a following [unban_user(u, 'xray')]
    returns [True] and its [update_xray_users] did not fail either, then
    each of these client lists holds [t] again. *)
Theorem ban_unban_when_applied
  (e : env) (u : string) (t : value) (w : world)
  (Hwf : wf (stored_users w))
  (Htoken : user_field w u "uuid" = Some t)
  (Hunique : forall u', u' <> u -> user_field w u' "uuid" <> Some t)
  (Hban : result (ban_user e u "xray") w = inr true)
  (Happlied : ~ apply_failed w (after (ban_user e u "xray") w)) :
  let w1 := after (ban_user e u "xray") w in
  token_absent t w1
  /\ (result (unban_user u "xray") w1 = inr true ->
      ~ apply_failed w1 (after (unban_user u "xray") w1) ->
      token_present t (after (unban_user u "xray") w1)).
Proof.
  destruct (ban_applied_absent e u t w Hwf Htoken Hunique Hban Happlied)
    as [Habs Ht1].
  split; [assumption|].
  intros Hun Hok. apply unban_applied_present; try assumption.
  destruct (run_op_true (BanUser e u "xray") w Hban) as (_ & us & Hs & Hf).
  change (run_op (BanUser e u "xray")) with (ban_user e u "xray") in Hf.
  rewrite (stored_users_holds _ us Hf).
  simpl in Hs. destruct (get u (stored_users w)); [|discriminate].
  injection Hs as <-. now apply wf_set.
Qed.

Lemma wf_singleton : wf (stored_users world_alice).
Proof.
  unfold wf. simpl. constructor; [simpl; tauto | constructor].
Qed.

Lemma ban_unban_when_applied_witness :
  token_absent (VStr "uuid-alice")
               (after (ban_user env_2 "alice" "xray") world_alice)
  /\ token_present (VStr "uuid-alice")
                   (after (unban_user "alice" "xray")
                          (after (ban_user env_2 "alice" "xray") world_alice)).
Proof.
  assert (Hunique : forall u', u' <> "alice" ->
            user_field world_alice u' "uuid" <> Some (VStr "uuid-alice")).
  { intros u' Hne. unfold user_field. simpl.
    destruct (String.eqb u' "alice") eqn:E; [|discriminate].
    apply String.eqb_eq in E. contradiction. }
  assert (Happlied : ~ apply_failed world_alice
                       (after (ban_user env_2 "alice" "xray") world_alice)).
  { unfold apply_failed. vm_compute. lia. }
  destruct (ban_unban_when_applied env_2 "alice" (VStr "uuid-alice") world_alice
              wf_singleton eq_refl Hunique eq_refl Happlied) as [Habsent Hpresent].
  split; [exact Habsent|].
  apply Hpresent; [reflexivity|].
  unfold apply_failed. vm_compute. lia.
Defined.

(** C4, where the code departs from it.  alice was created for xray
    and carries the token uuid-alice; bob was created for SSH and has
    no [uuid] key; the artifact has one vmess inbound, which lists
    alice.  [ban_user('alice', 'xray')] returns [True] and stores
    [banned = True] for alice, but the [update_xray_users] it calls
    raises [KeyError] on bob's record before it writes anything: the
    artifact is the one found, and its vmess client list still holds
    alice's token. *)
Theorem ban_beside_tokenless_user_keeps_token :
  let w1 := after (ban_user env_2 "alice" "xray") world_alice_bob in
  user_field world_alice_bob "alice" "uuid" = Some (VStr "uuid-alice")
  /\ user_field world_alice_bob "bob" "uuid" = None
  /\ result (ban_user env_2 "alice" "xray") world_alice_bob = inr true
  /\ user_field w1 "alice" "banned" = Some (VBool true)
  /\ errors w1 = xray_error :: errors world_alice_bob
  /\ xray_file w1 = xray_file world_alice_bob
  /\ xray_file w1
     = Holds (mk_xray [mk_inbound 443 "vmess"
                                  [vmess_entry (VStr "uuid-alice")]
                                  "ws" "/vmess"] ["freedom"])
  /\ ~ token_absent (VStr "uuid-alice") w1.
Proof.
  cbv zeta. repeat split; try reflexivity.
  intros Habsent.
  apply (Habsent
           (mk_xray [mk_inbound 443 "vmess" [vmess_entry (VStr "uuid-alice")]
                                "ws" "/vmess"] ["freedom"])
           (mk_inbound 443 "vmess" [vmess_entry (VStr "uuid-alice")] "ws" "/vmess")
           (vmess_entry (VStr "uuid-alice"))).
  - reflexivity.
  - left. reflexivity.
  - reflexivity.
  - left. reflexivity.
  - left. reflexivity.
Qed.

(** The result of [ban_user] and [unban_user] alone does not settle
    what the artifact lists: the run above returns [True] and leaves
    the banned token in place. *)
Lemma banned_token_still_listed : ~ ban_unban_by_result.
Proof.
  intros H.
  destruct (H env_2 "alice" (VStr "uuid-alice") world_alice_bob eq_refl eq_refl)
    as [Habsent _].
  apply (Habsent
           (mk_xray [mk_inbound 443 "vmess" [vmess_entry (VStr "uuid-alice")]
                                "ws" "/vmess"] ["freedom"])
           (mk_inbound 443 "vmess" [vmess_entry (VStr "uuid-alice")] "ws" "/vmess")
           (vmess_entry (VStr "uuid-alice"))).
  - reflexivity.
  - left. reflexivity.
  - reflexivity.
  - left. reflexivity.
  - left. reflexivity.
Qed.

(* ------------------------------------------------------------------ *)
(** ** Which records carry a token *)

Lemma mem_set_other {A} k k' (v : A) d :
  k <> k' -> mem k' (set k v d) = mem k' d.
Proof. intros H. unfold mem. now rewrite get_set_other. Qed.

Lemma took_effect_same o w w' :
  users_file w' = users_file w -> took_effect o w w' = false.
Proof.
  intros H. unfold took_effect, stored_users. rewrite H.
  destruct o; try reflexivity;
    destruct (mem username _); reflexivity.
Qed.

Lemma track_false o g : track o false g = g.
Proof. now destruct o. Qed.

Lemma token_iff_xray_same g w w' :
  users_file w' = users_file w ->
  wf (stored_users w) /\ token_iff_xray g w ->
  wf (stored_users w') /\ token_iff_xray g w'.
Proof.
  unfold token_iff_xray, stored_users. now intros ->.
Qed.

Lemma users_file_cases w : users_file w = Invalid \/ users_file w <> Invalid.
Proof. destruct (users_file w); [right | left | right]; congruence. Qed.

Lemma token_iff_xray_step o g w :
  wf (stored_users w) -> token_iff_xray g w ->
  match o with
  | ChangeUuid _ u => forall s, get u g = Some s -> s = "xray"
  | _ => True
  end ->
  wf (stored_users (after (run_op o) w))
  /\ token_iff_xray (track o (took_effect o w (after (run_op o) w)) g)
                    (after (run_op o) w).
Proof.
  intros Hwf Hinv Hch.
  assert (Hsame : users_file (after (run_op o) w) = users_file w ->
                  wf (stored_users (after (run_op o) w))
                  /\ token_iff_xray
                       (track o (took_effect o w (after (run_op o) w)) g)
                       (after (run_op o) w)).
  { intros Hf. rewrite (took_effect_same o w _ Hf), track_false.
    now apply (token_iff_xray_same g w). }
  destruct (users_file_cases w) as [Hi|Hv].
  { apply Hsame. destruct (run_op_invalid o w Hi) as [_ Hf]. congruence. }
  pose proof (run_op_store o w Hv) as Hst.
  destruct (store_step o (stored_users w)) as [us|] eqn:Hs.
  2: { apply Hsame. unfold after. now rewrite Hst. }
  destruct Hst as [_ Hf]. unfold token_iff_xray in Hinv.
  destruct o; cbn [run_op store_step] in *.
  - (* add_user *)
    destruct (mem username (stored_users w)) eqn:Em; [discriminate|].
    injection Hs as <-.
    unfold token_iff_xray, took_effect.
    rewrite (stored_users_holds _ _ Hf), Em.
    unfold mem at 1. rewrite get_set_same. cbn [negb andb track].
    split; [now apply wf_set|].
    intros u r. destruct (string_dec username u) as [<-|Hne].
    + rewrite !get_set_same. intros [= <-]. exists service. split; auto.
      destruct (String.eqb service "xray") eqn:Es.
      * apply String.eqb_eq in Es. split; intros _; [exact Es | reflexivity].
      * apply String.eqb_neq in Es.
        split; [intros Hm; cbv in Hm; discriminate | contradiction].
    + rewrite !get_set_other by assumption. apply Hinv.
  - (* delete_user *)
    destruct (own_tools_ok (DeleteUser e username) w); [|now apply Hsame].
    destruct (mem username (stored_users w)) eqn:Em; [|discriminate].
    injection Hs as <-.
    unfold token_iff_xray, took_effect.
    rewrite (stored_users_holds _ _ Hf), Em.
    unfold mem at 1. rewrite get_del_same by assumption. cbn [negb andb track].
    split; [now apply wf_del|].
    intros u r. destruct (string_dec username u) as [<-|Hne].
    + rewrite get_del_same by assumption. discriminate.
    + rewrite !get_del_other by assumption. apply Hinv.
  - (* ban_user *)
    destruct (get username (stored_users w)) as [r0|] eqn:Er; [|discriminate].
    injection Hs as <-.
    unfold token_iff_xray. rewrite (stored_users_holds _ _ Hf). cbn [took_effect track].
    split; [now apply wf_set|].
    intros u r. destruct (string_dec username u) as [<-|Hne].
    + rewrite get_set_same. intros [= <-].
      rewrite !mem_set_other by discriminate. now apply Hinv.
    + rewrite get_set_other by assumption. apply Hinv.
  - (* unban_user *)
    destruct (get username (stored_users w)) as [r0|] eqn:Er; [|discriminate].
    injection Hs as <-.
    unfold token_iff_xray. rewrite (stored_users_holds _ _ Hf). cbn [took_effect track].
    split; [now apply wf_set|].
    intros u r. destruct (string_dec username u) as [<-|Hne].
    + rewrite get_set_same. intros [= <-].
      rewrite !mem_set_other by discriminate. now apply Hinv.
    + rewrite get_set_other by assumption. apply Hinv.
  - (* set_quota *)
    destruct (get username (stored_users w)) as [r0|] eqn:Er; [|discriminate].
    injection Hs as <-.
    unfold token_iff_xray. rewrite (stored_users_holds _ _ Hf). cbn [took_effect track].
    split; [now apply wf_set|].
    intros u r. destruct (string_dec username u) as [<-|Hne].
    + rewrite get_set_same. intros [= <-].
      rewrite !mem_set_other by discriminate. now apply Hinv.
    + rewrite get_set_other by assumption. apply Hinv.
  - (* change_uuid *)
    destruct (get username (stored_users w)) as [r0|] eqn:Er; [|discriminate].
    injection Hs as <-.
    unfold token_iff_xray. rewrite (stored_users_holds _ _ Hf). cbn [took_effect track].
    split; [now apply wf_set|].
    intros u r. destruct (string_dec username u) as [<-|Hne].
    + rewrite get_set_same. intros [= <-].
      destruct (Hinv username r0 Er) as (s & Hg & _).
      exists s. split; [assumption|].
      rewrite (Hch s Hg). unfold mem. rewrite get_set_same. tauto.
    + rewrite get_set_other by assumption. apply Hinv.
Qed.

Lemma token_iff_xray_run ops :
  forall g w,
    wf (stored_users w) -> token_iff_xray g w ->
    uuid_changes_on_xray ops g w ->
    token_iff_xray (fst (run_ops ops g w)) (snd (run_ops ops g w)).
Proof.
  induction ops as [|o ops IH]; simpl; intros g w Hwf Hinv Hch.
  - assumption.
  - destruct Hch as [Ho Hrest].
    destruct (token_iff_xray_step o g w Hwf Hinv Ho) as [Hwf' Hinv'].
    now apply IH.
Qed.

(** C7, as the code has it.  Start from an empty user document and run
    any sequence of [add_user], [delete_user], [ban_user], [unban_user],
    [set_quota] and [change_uuid] calls in which [change_uuid] is only
    called on users created with service ['xray'].  Then every stored
    record has a ['uuid'] key exactly when its user was created with
    service ['xray']. *)
Theorem token_follows_creation_unless_changed
  (ops : list op) (w0 : world)
  (Hempty : users_file w0 = Holds [])
  (Hchange : uuid_changes_on_xray ops [] w0) :
  token_iff_xray (fst (run_ops ops [] w0)) (snd (run_ops ops [] w0)).
Proof.
  apply token_iff_xray_run; try assumption.
  - rewrite (stored_users_holds _ _ Hempty). constructor.
  - intros u r. rewrite (stored_users_holds _ _ Hempty). discriminate.
Qed.

Lemma token_follows_creation_unless_changed_witness :
  users_file world_configured = Holds []
  /\ token_iff_xray (fst (run_ops history_ok [] world_configured))
                    (snd (run_ops history_ok [] world_configured)).
Proof.
  split; [reflexivity|].
  apply (token_follows_creation_unless_changed history_ok world_configured);
    [reflexivity|].
  cbv. repeat split. intros s [= <-]. reflexivity.
Defined.

(** C7, as stated, fails: bob is created with service ['ssh'] and then
    [change_uuid('bob')] is called; both calls return [True] and bob's
    record now has a ['uuid']. *)
Lemma change_uuid_gives_ssh_user_a_token : ~ token_follows_creation.
Proof.
  intros H.
  destruct (H history_foreign_uuid world_fresh eq_refl "bob"
              (set "uuid" (VStr "uuid-alice") (new_user_data env_2 "pw" None))
              eq_refl)
    as (s & Hs & Hiff).
  cbv in Hs. injection Hs as <-.
  destruct Hiff as [Hxray _]. specialize (Hxray eq_refl). discriminate.
Qed.

(* ------------------------------------------------------------------ *)
(** * Further properties of the managers *)

(** ** Operations that stop at their first check *)

(** X1. [delete_user], [ban_user], [unban_user], [set_quota] and
    [change_uuid] on a username the readable store does not hold return
    [False] and leave the whole world as it was: no file is written, no
    command is run, nothing is logged. *)
Theorem unknown_target_changes_nothing (o : op) (w : world)
  (Hvalid : users_file w <> Invalid)
  (Hkind : match o with AddUser _ _ _ _ _ => False | _ => True end)
  (Habsent : mem (op_target o) (stored_users w) = false) :
  run_op o w = (inr false, w).
Proof.
  pose proof (run_op_store o w Hvalid) as Hs.
  apply mem_false_get in Habsent.
  destruct o; simpl in *; try contradiction;
    unfold mem in Hs; rewrite Habsent in Hs; exact Hs.
Qed.

Lemma unknown_target_changes_nothing_witness :
  run_op (ChangeUuid env_1 "carol") world_alice_bob = (inr false, world_alice_bob)
  /\ run_op (DeleteUser env_1 "carol") world_alice_bob = (inr false, world_alice_bob).
Proof.
  split.
  - apply (unknown_target_changes_nothing (ChangeUuid env_1 "carol") world_alice_bob);
      [discriminate | exact I | reflexivity].
  - apply (unknown_target_changes_nothing (DeleteUser env_1 "carol") world_alice_bob);
      [discriminate | exact I | reflexivity].
Defined.

(** X2. When users.json exists but cannot be parsed, every one of the six
    operations returns [False]; the only trace it leaves is its own
    error message in the log. *)
Theorem unreadable_store_blocks_every_operation (o : op) (w : world)
  (Hbad : users_file w = Invalid) :
  run_op o w = (inr false, with_error (op_error o) w).
Proof.
  destruct o; simpl;
    unfold add_user, delete_user, ban_user, unban_user, set_quota, change_uuid,
           try_except, bind, _load_users;
    rewrite Hbad; reflexivity.
Qed.

Lemma unreadable_store_blocks_every_operation_witness :
  run_op (AddUser env_2 "carol" "pw" "xray" None) (with_users Invalid world_alice)
  = (inr false, with_error "Error adding user" (with_users Invalid world_alice)).
Proof.
  apply (unreadable_store_blocks_every_operation
           (AddUser env_2 "carol" "pw" "xray" None) (with_users Invalid world_alice)).
  reflexivity.
Defined.

(* ------------------------------------------------------------------ *)
(** ** What add_user stores *)

(** X3. An [add_user] that returns [True] appends one record after the
    existing users and changes no other record.  The record holds the
    password, the creation time, the quota ([None] when none was given),
    [quota_used = 0], [banned = False], [locked = False],
    [last_login = None], [login_attempts = 0], no [banned_at], and a
    ['uuid'] (the fresh one) exactly when the service is ['xray']. *)
Theorem add_user_stores_record
  (e : env) (username password service : string) (quota : option Z) (w : world)
  (Hok : result (add_user e username password service quota) w = inr true) :
  let w' := after (add_user e username password service quota) w in
  user_field w' username "password" = Some (VStr password)
  /\ user_field w' username "created_at" = Some (VStr (now e))
  /\ user_field w' username "quota" = Some (quota_value quota)
  /\ user_field w' username "quota_used" = Some (VInt 0)
  /\ user_field w' username "banned" = Some (VBool false)
  /\ user_field w' username "locked" = Some (VBool false)
  /\ user_field w' username "last_login" = Some VNone
  /\ user_field w' username "login_attempts" = Some (VInt 0)
  /\ user_field w' username "banned_at" = None
  /\ user_field w' username "uuid"
     = (if String.eqb service "xray" then Some (VStr (uuid4 e)) else None)
  /\ keys (stored_users w') = (keys (stored_users w) ++ [username])%list
  /\ (forall other, other <> username ->
                    get other (stored_users w') = get other (stored_users w)).
Proof.
  destruct (run_op_true (AddUser e username password service quota) w Hok)
    as (Hv & us & Hs & Hf).
  simpl in Hs, Hf. cbv zeta. unfold user_field.
  rewrite (stored_users_holds _ us Hf).
  destruct (mem username (stored_users w)) eqn:Em; [discriminate|].
  injection Hs as <-. rewrite get_set_same.
  repeat split;
    try (destruct (String.eqb service "xray"); reflexivity).
  - now apply keys_set_absent.
  - intros other Hne. apply get_set_other. congruence.
Qed.

Lemma add_user_stores_record_witness :
  user_field world_alice "alice" "uuid" = Some (VStr "uuid-alice")
  /\ user_field world_alice_bob "bob" "uuid" = None
  /\ keys (stored_users world_alice_bob) = ["alice"; "bob"].
Proof.
  pose proof (add_user_stores_record env_1 "alice" "pw" "xray" (Some 5)
                world_configured eq_refl) as Ha.
  pose proof (add_user_stores_record env_2 "bob" "pw" "ssh" None
                world_alice eq_refl) as Hb.
  cbv zeta in Ha, Hb.
  destruct Ha as (_ & _ & _ & _ & _ & _ & _ & _ & _ & Hua & _).
  destruct Hb as (_ & _ & _ & _ & _ & _ & _ & _ & _ & Hub & Hk & _).
  split; [exact Hua|]. split; [exact Hub | exact Hk].
Defined.

(* ------------------------------------------------------------------ *)
(** ** ban_user followed by unban_user *)

(** X4. After a [ban_user] that returned [True], [unban_user] on the same
    user, whatever the two service arguments are, leaves the record as
    it was before the ban except for two fields: [banned] is [False] and
    [banned_at] is present with value [None]; no other record and no
    position in the mapping changes.  This holds whether [unban_user]
    returns [True] or [False]: it saves the record first and returns
    [True] exactly when the service is not ['ssh'] or [fail2ban-client]
    could be started. *)
Theorem unban_undoes_ban (e : env) (u s1 s2 : string) (w : world)
  (Hban : result (ban_user e u s1) w = inr true) :
  let w1 := after (ban_user e u s1) w in
  let w2 := after (unban_user u s2) w1 in
  (result (unban_user u s2) w1 = inr true <->
   (s2 = "ssh" -> can_run (unbanip_argv u) w1 = true))
  /\ user_field w2 u "banned" = Some (VBool false)
  /\ user_field w2 u "banned_at" = Some VNone
  /\ (forall k, k <> "banned" -> k <> "banned_at" ->
                user_field w2 u k = user_field w u k)
  /\ (forall other, other <> u ->
                    get other (stored_users w2) = get other (stored_users w))
  /\ keys (stored_users w2) = keys (stored_users w).
Proof.
  cbv zeta.
  destruct (run_op_true (BanUser e u s1) w Hban) as (Hv & us & Hs & Hf).
  simpl in Hs, Hf.
  destruct (get u (stored_users w)) as [r|] eqn:Hr; [|discriminate].
  injection Hs as <-.
  pose proof (stored_users_holds _ _ Hf) as Hst1.
  assert (Hv1 : users_file (after (ban_user e u s1) w) <> Invalid)
    by (rewrite Hf; discriminate).
  pose proof (run_op_store (UnbanUser u s2) _ Hv1) as Hun.
  cbn [store_step run_op] in Hun. rewrite Hst1, get_set_same in Hun.
  destruct Hun as [Hres Hf2]. split.
  - rewrite Hres. cbn [own_tools_ok]. rewrite <- if_ssh_true.
    split; [now intros [= ->] | now intros ->].
  - unfold user_field. rewrite (stored_users_holds _ _ Hf2), Hr.
    rewrite set_set_same, get_set_same.
    repeat split.
    + rewrite get_set_other by discriminate. apply get_set_same.
    + apply get_set_same.
    + intros k Hk1 Hk2. now rewrite !get_set_other by congruence.
    + intros other Hne. apply get_set_other. congruence.
    + apply keys_set_present. unfold mem. now rewrite Hr.
Qed.

Lemma unban_undoes_ban_witness :
  result (ban_user env_2 "alice" "xray") world_alice_bob = inr true
  /\ result (unban_user "alice" "ssh")
            (after (ban_user env_2 "alice" "xray") world_alice_bob) = inr true
  /\ user_field (after (unban_user "alice" "ssh")
                       (after (ban_user env_2 "alice" "xray") world_alice_bob))
                "alice" "uuid"
     = Some (VStr "uuid-alice").
Proof.
  split; [reflexivity|].
  destruct (unban_undoes_ban env_2 "alice" "xray" "ssh" world_alice_bob eq_refl)
    as (Hres & _ & _ & Hkeep & _).
  split.
  - apply Hres. reflexivity.
  - rewrite (Hkeep "uuid"); [reflexivity | discriminate | discriminate].
Defined.

(* ------------------------------------------------------------------ *)
(** ** The traffic counters *)

Lemma update_user_traffic_eq e u up down w :
  update_user_traffic e u up down w =
  match stats_file w with
  | Invalid => (inr false, with_error "Error updating user traffic" w)
  | _ =>
      let t := traffic_or_zero e u (stored_stats w) in
      (inr true,
       mk_world (users_file w)
                (Holds (set u (mk_traffic (upload t + up) (download t + down)
                                          (last_reset t))
                            (stored_stats w)))
                (xray_file w) (commands w) (errors w) (host w))
  end.
Proof.
  unfold update_user_traffic, try_except, bind, _load_stats, stats_item,
    stored_stats, traffic_or_zero.
  destruct (stats_file w) as [| |stats]; simpl; try reflexivity.
  - repeat (rewrite String.eqb_refl; simpl). reflexivity.
  - unfold mem. destruct (get u stats) as [t|] eqn:E; simpl.
    + rewrite E. simpl. rewrite get_set_same. simpl.
      now rewrite set_set_same.
    + repeat (rewrite get_set_same; simpl). now rewrite !set_set_same.
Qed.

Lemma reset_user_traffic_eq e u w :
  reset_user_traffic e u w =
  match stats_file w with
  | Invalid => (inr false, with_error "Error resetting user traffic" w)
  | _ =>
      if mem u (stored_stats w)
      then (inr true,
            mk_world (users_file w)
                     (Holds (set u (mk_traffic 0 0 (now e)) (stored_stats w)))
                     (xray_file w) (commands w) (errors w) (host w))
      else (inr true, w)
  end.
Proof.
  unfold reset_user_traffic, try_except, bind, _load_stats, stored_stats.
  destruct (stats_file w) as [| |stats]; simpl; try reflexivity.
  destruct (mem u stats); reflexivity.
Qed.

Lemma traffic_or_zero_set e u t stats :
  traffic_or_zero e u (set u t stats) = t.
Proof. unfold traffic_or_zero. now rewrite get_set_same. Qed.

Lemma stored_stats_mk u s x c er h :
  stored_stats (mk_world u (Holds s) x c er h) = s.
Proof. reflexivity. Qed.

(** X5. On a stats file that is absent or readable, [update_user_traffic]
    returns [True] and adds the two deltas to the user's counters,
    starting from zero (and from the current time as [last_reset]) for a
    user not tracked yet; [last_reset] of a tracked user is kept.  No
    other user's counters change, and neither do the users file, the
    xray artifact, the commands run or the log. *)
Theorem update_user_traffic_adds
  (e : env) (u : string) (up down : Z) (w : world)
  (Hstats : stats_file w <> Invalid) :
  let w' := after (update_user_traffic e u up down) w in
  let t := traffic_or_zero e u (stored_stats w) in
  result (update_user_traffic e u up down) w = inr true
  /\ get u (stored_stats w')
     = Some (mk_traffic (upload t + up) (download t + down) (last_reset t))
  /\ (forall other, other <> u ->
                    get other (stored_stats w') = get other (stored_stats w))
  /\ users_file w' = users_file w /\ xray_file w' = xray_file w
  /\ commands w' = commands w /\ errors w' = errors w.
Proof.
  cbv zeta. unfold result, after. rewrite update_user_traffic_eq.
  destruct (stats_file w) eqn:F; [|contradiction|]; cbv zeta; simpl fst; simpl snd;
    rewrite stored_stats_mk; repeat split; auto using get_set_same;
    intros other Hne; apply get_set_other; congruence.
Qed.

Lemma update_user_traffic_adds_witness :
  get "bob" (stored_stats world_traffic)
  = Some (mk_traffic 3 4 "2024-05-02T11:30:01")
  /\ get "alice" (stored_stats world_traffic)
     = Some (mk_traffic 0 0 "2024-05-01T10:00:01").
Proof.
  destruct (update_user_traffic_adds env_2 "bob" 3 4 world_alice_bob)
    as (_ & Hbob & Hothers & _); [discriminate|].
  split; [exact Hbob|].
  unfold world_traffic. rewrite (Hothers "alice"); [reflexivity | discriminate].
Defined.

(** X6. Two [update_user_traffic] calls in a row leave the stats file as
    one call with the summed deltas does; for a user not tracked before,
    [last_reset] is the time of the first call. *)
Theorem update_user_traffic_composes
  (e1 e2 : env) (u : string) (a b c d : Z) (w : world)
  (Hstats : stats_file w <> Invalid) :
  stats_file (after (update_user_traffic e2 u c d)
                    (after (update_user_traffic e1 u a b) w))
  = stats_file (after (update_user_traffic e1 u (a + c) (b + d)) w).
Proof.
  unfold after.
  rewrite (update_user_traffic_eq e1 u a b w),
    (update_user_traffic_eq e1 u (a + c) (b + d) w).
  destruct (stats_file w) eqn:F; [|contradiction|]; cbv zeta; simpl snd;
    rewrite update_user_traffic_eq; simpl;
    rewrite !stored_stats_mk, !traffic_or_zero_set; simpl;
    rewrite set_set_same, !Z.add_assoc; reflexivity.
Qed.

Lemma update_user_traffic_composes_witness :
  stats_file (after (update_user_traffic env_2 "alice" 5 6)
                    (after (update_user_traffic env_1 "alice" 1 2) world_alice_bob))
  = stats_file (after (update_user_traffic env_1 "alice" 6 8) world_alice_bob).
Proof.
  apply (update_user_traffic_composes env_1 env_2 "alice" 1 2 5 6 world_alice_bob).
  discriminate.
Defined.

(** X7. On a stats file that is absent or readable, [reset_user_traffic]
    returns [True].  For a tracked user it sets both counters to 0 and
    [last_reset] to the current time and changes no other entry; for a
    user that is not tracked it writes nothing at all, so no entry is
    created. *)
Theorem reset_user_traffic_zeroes
  (e : env) (u : string) (w : world)
  (Hstats : stats_file w <> Invalid) :
  let w' := after (reset_user_traffic e u) w in
  result (reset_user_traffic e u) w = inr true
  /\ (mem u (stored_stats w) = true ->
      get u (stored_stats w') = Some (mk_traffic 0 0 (now e))
      /\ keys (stored_stats w') = keys (stored_stats w))
  /\ (mem u (stored_stats w) = false -> w' = w)
  /\ (forall other, other <> u ->
                    get other (stored_stats w') = get other (stored_stats w)).
Proof.
  cbv zeta. unfold result, after. rewrite reset_user_traffic_eq.
  destruct (stats_file w) eqn:F; [|contradiction|];
    destruct (mem u (stored_stats w)) eqn:Em; simpl fst; simpl snd;
    rewrite ?stored_stats_mk; repeat split; try discriminate; auto.
  all: try apply get_set_same.
  all: try (now apply keys_set_present).
  all: intros other Hne; apply get_set_other; congruence.
Qed.

Lemma reset_user_traffic_zeroes_witness :
  get "bob" (stored_stats (after (reset_user_traffic env_1 "bob") world_traffic))
  = Some (mk_traffic 0 0 "2024-05-01T10:00:00")
  /\ after (reset_user_traffic env_1 "carol") world_traffic = world_traffic.
Proof.
  destruct (reset_user_traffic_zeroes env_1 "bob" world_traffic)
    as (_ & Hbob & _); [discriminate|].
  destruct (reset_user_traffic_zeroes env_1 "carol" world_traffic)
    as (_ & _ & Hcarol & _); [discriminate|].
  split; [exact (proj1 (Hbob eq_refl)) | exact (Hcarol eq_refl)].
Defined.

(** X8. [get_user_traffic] reads back what [update_user_traffic] stored:
    after an update on an absent or readable stats file it returns the
    summed counters, and the read itself changes nothing. *)
Theorem get_user_traffic_reads_back
  (e e' : env) (u : string) (up down : Z) (w : world)
  (Hstats : stats_file w <> Invalid) :
  let w' := after (update_user_traffic e u up down) w in
  let t := traffic_or_zero e u (stored_stats w) in
  get_user_traffic e' u w'
  = (inr (Some (mk_traffic (upload t + up) (download t + down) (last_reset t))),
     w').
Proof.
  cbv zeta. unfold after. rewrite update_user_traffic_eq.
  destruct (stats_file w) eqn:F; [|contradiction|]; cbv zeta; simpl snd;
    unfold get_user_traffic, try_except, bind, _load_stats;
    simpl; rewrite traffic_or_zero_set; reflexivity.
Qed.

Lemma get_user_traffic_reads_back_witness :
  result (get_user_traffic env_1 "bob") world_traffic
  = inr (Some (mk_traffic 3 4 "2024-05-02T11:30:01")).
Proof.
  unfold result, world_traffic.
  rewrite (get_user_traffic_reads_back env_2 env_1 "bob" 3 4 world_alice_bob);
    [reflexivity | discriminate].
Defined.

(* ------------------------------------------------------------------ *)
(** ** The quota check beside the other operations *)

Lemma check_user_quota_int u w q stats t :
  user_field w u "quota" = Some (VInt q) ->
  stats_file w = Holds stats -> get u stats = Some t ->
  check_user_quota u w
  = (inr (upload t + download t <? q * 1024 * 1024 * 1024), w).
Proof.
  intros Hq Hs Ht.
  assert (Hv : users_file w <> Invalid /\ users_file w <> Missing).
  { unfold user_field, stored_users in Hq.
    destruct (users_file w); simpl in Hq; split; congruence. }
  unfold check_user_quota, try_except, bind, _load_stats, stats_item.
  rewrite Hs. simpl. unfold mem. rewrite Ht. simpl.
  rewrite get_user_quota_eq by tauto. rewrite Hq. reflexivity.
Qed.

(** X9. A quota stored by [set_quota] is the one the next
    [check_user_quota] uses: for a user with counters [t], the check
    after a successful [set_quota(u, _, q)] answers [True] exactly when
    [upload t + download t < q * 2^30], whatever quota was stored
    before. *)
Theorem set_quota_takes_effect
  (u service : string) (q : Z) (w : world) (stats : dict traffic) (t : traffic)
  (Hok : result (set_quota u service q) w = inr true)
  (Hstats : stats_file w = Holds stats)
  (Htracked : get u stats = Some t) :
  result (check_user_quota u) (after (set_quota u service q) w)
  = inr (upload t + download t <? q * 2 ^ 30).
Proof.
  destruct (run_op_true (SetQuota u service q) w Hok) as (Hv & us & Hs & Hf).
  simpl in Hs, Hf.
  destruct (get u (stored_users w)) as [r|] eqn:Hr; [|discriminate].
  injection Hs as <-.
  assert (Hst : stats_file (after (set_quota u service q) w) = Holds stats).
  { unfold after. rewrite set_quota_eq, Hr.
    destruct (users_file w); [assumption | contradiction | assumption]. }
  unfold result.
  rewrite (check_user_quota_int u _ q stats t
             (user_field_set_same _ u "quota" (VInt q) r _ Hf) Hst Htracked).
  simpl. do 2 f_equal. lia.
Qed.

Lemma set_quota_takes_effect_witness :
  result (check_user_quota "alice") world_at_quota = inr false
  /\ result (check_user_quota "alice")
            (after (set_quota "alice" "xray" 6) world_at_quota) = inr true.
Proof.
  split; [reflexivity|].
  rewrite (set_quota_takes_effect "alice" "xray" 6 world_at_quota
             [("alice", mk_traffic (4 * 2 ^ 30) (2 ^ 30) "2024-05-01T10:00:01")]
             (mk_traffic (4 * 2 ^ 30) (2 ^ 30) "2024-05-01T10:00:01")
             eq_refl eq_refl eq_refl).
  reflexivity.
Defined.

(** X10. For a user that has no entry in the stats file,
    [check_user_quota] answers [True] whatever quota is stored, a quota
    of 0 included; this also covers a stats file that is absent or
    cannot be parsed. *)
Theorem untracked_user_passes_quota_check (u : string) (w : world)
  (Huntracked : mem u (stored_stats w) = false) :
  result (check_user_quota u) w = inr true.
Proof.
  unfold result, check_user_quota, try_except, bind, _load_stats.
  unfold stored_stats in Huntracked.
  destruct (stats_file w); simpl; try reflexivity.
  now rewrite Huntracked.
Qed.

Lemma untracked_user_passes_quota_check_witness :
  let w := after (set_quota "alice" "xray" 0) world_alice in
  user_field w "alice" "quota" = Some (VInt 0)
  /\ result (check_user_quota "alice") w = inr false
  /\ result (check_user_quota "alice") (with_stats (Holds []) w) = inr true.
Proof.
  cbv zeta. split; [reflexivity|]. split; [reflexivity|].
  apply (untracked_user_passes_quota_check "alice"
           (with_stats (Holds []) (after (set_quota "alice" "xray" 0) world_alice))).
  reflexivity.
Defined.

(* ------------------------------------------------------------------ *)
(** ** get_user_info *)

Lemma update_user_traffic_stats e u a b w0 w :
  stats_file w0 = stats_file w ->
  stats_file (snd (update_user_traffic e u a b w0))
  = stats_file (snd (update_user_traffic e u a b w)).
Proof.
  intros H. rewrite !update_user_traffic_eq. unfold stored_stats. rewrite H.
  destruct (stats_file w) eqn:F; simpl; congruence.
Qed.

Lemma add_user_stats e u p s q w :
  result (add_user e u p s q) w = inr true ->
  stats_file (after (add_user e u p s q) w)
  = stats_file (after (update_user_traffic (tick e) u 0 0) w).
Proof.
  intros Hok.
  destruct (run_op_true (AddUser e u p s q) w Hok) as (Hv & us & Hs & _).
  pose proof (run_op_true_tools (AddUser e u p s q) w Hok) as Ht.
  cbn [own_tools_ok] in Ht.
  simpl in Hs. destruct (mem u (stored_users w)) eqn:Em; [discriminate|].
  unfold after, add_user, try_except, bind.
  rewrite (load_users_eq w Hv), Em. simpl.
  fold (useradd_argv u).
  destruct (String.eqb s "ssh");
    [apply andb_prop in Ht as [Ht1 Ht2];
     run_tools w; rewrite Ht1; simpl; run_tools w; rewrite Ht2; simpl|];
    destruct (String.eqb s "xray"); simpl.
  all: repeat match goal with
         | |- context [update_xray_users ?us ?w0] =>
             let E := fresh "E" in
             destruct (update_xray_users_total us w0) as (? & ? & E & ? & ? & ?);
             rewrite E; clear E; simpl
         end.
  all: match goal with
       | |- context [update_user_traffic ?e0 ?u0 0 0 ?w0] =>
           match goal with
           | |- _ = stats_file (snd (update_user_traffic _ _ _ _ ?w1)) =>
               rewrite <- (update_user_traffic_stats e0 u0 0 0 w0 w1);
               [destruct (update_user_traffic e0 u0 0 0 w0) as [[?|?] ?];
                reflexivity|]
           end
       end.
  all: simpl in *; congruence.
Qed.

Lemma get_scalars k r :
  get k (scalars r) = option_map Scalar (get k r).
Proof.
  induction r as [|[k' v] r IH]; simpl; [reflexivity|].
  destruct (String.eqb k k'); auto.
Qed.

(** X11. [get_user_info] right after a successful [add_user] (stats file
    absent or readable) returns a dictionary with the password and quota
    that were supplied, [banned = False], a ['uuid'] exactly when the
    service is ['xray'], and under ['traffic'] the user's counters: zero
    (with the time [add_user] read for them, after the creation time) for
    a name never tracked before, the old counters for a name that
    was. *)
Theorem get_user_info_after_add
  (e e' : env) (u p s : string) (q : option Z) (w : world)
  (Hok : result (add_user e u p s q) w = inr true)
  (Hstats : stats_file w <> Invalid) :
  exists info,
    result (get_user_info e' u) (after (add_user e u p s q) w) = inr (Some info)
    /\ get "password" info = Some (Scalar (VStr p))
    /\ get "quota" info = Some (Scalar (quota_value q))
    /\ get "banned" info = Some (Scalar (VBool false))
    /\ get "uuid" info
       = (if String.eqb s "xray" then Some (Scalar (VStr (uuid4 e))) else None)
    /\ get "traffic" info
       = Some (Traffic (traffic_or_zero (tick e) u (stored_stats w))).
Proof.
  pose proof (add_user_stats e u p s q w Hok) as Hst.
  destruct (run_op_true (AddUser e u p s q) w Hok) as (Hv & us & Hs & Hf).
  simpl in Hs, Hf. destruct (mem u (stored_users w)); [discriminate|].
  injection Hs as <-.
  unfold after in Hst at 2. rewrite update_user_traffic_eq in Hst.
  assert (Hst' : stats_file (after (add_user e u p s q) w)
                 = Holds (set u (traffic_or_zero (tick e) u (stored_stats w))
                               (stored_stats w))).
  { rewrite Hst.
    destruct (traffic_or_zero (tick e) u (stored_stats w)) as [a b l].
    destruct (stats_file w); [|contradiction|]; simpl; now rewrite !Z.add_0_r. }
  clear Hst.
  unfold result, get_user_info, bind, _load_users. rewrite Hf.
  rewrite get_set_same.
  destruct (String.eqb s "xray"); simpl;
    unfold get_user_traffic, try_except, bind, _load_stats; rewrite Hst'; simpl;
    rewrite traffic_or_zero_set;
    (eexists; split; [reflexivity|]); repeat split; reflexivity.
Qed.

Lemma get_user_info_after_add_witness :
  exists info,
    result (get_user_info env_2 "alice") world_alice = inr (Some info)
    /\ get "uuid" info = Some (Scalar (VStr "uuid-alice"))
    /\ get "traffic" info
       = Some (Traffic (mk_traffic 0 0 "2024-05-01T10:00:01")).
Proof.
  destruct (get_user_info_after_add env_1 env_2 "alice" "pw" "xray" (Some 5)
              world_configured eq_refl)
    as (info & Hr & _ & _ & _ & Hu & Ht); [discriminate|].
  exists info. split; [exact Hr|]. split; [exact Hu | exact Ht].
Defined.

(** X12. [get_user_info] only reads: it never changes the users file,
    the stats file, the xray artifact or the commands run.  For a name
    the readable store does not hold it returns [None] and leaves the
    world untouched; on a users file that cannot be parsed it does not
    return at all but raises the decoding error to its caller. *)
Theorem get_user_info_only_reads (e : env) (u : string) (w : world) :
  let w' := after (get_user_info e u) w in
  (users_file w' = users_file w /\ stats_file w' = stats_file w
   /\ xray_file w' = xray_file w /\ commands w' = commands w)
  /\ (users_file w <> Invalid -> mem u (stored_users w) = false ->
      get_user_info e u w = (inr None, w))
  /\ (users_file w = Invalid ->
      get_user_info e u w = (inl JSONDecodeError, w)).
Proof.
  cbv zeta. unfold after, get_user_info, bind, _load_users, stored_users, mem.
  destruct (users_file w) as [| |users] eqn:F; simpl.
  - repeat split; intros; auto; congruence.
  - repeat split; intros; auto; congruence.
  - destruct (get u users) as [[|kv r]|].
    + simpl. repeat split; intros; auto; try congruence.
    + unfold get_user_traffic, try_except, bind, _load_stats.
      destruct (stats_file w) eqn:G; cbn -[set scalars];
        repeat split; intros; auto; try congruence.
    + simpl. repeat split; intros; auto; try congruence.
Qed.

Lemma get_user_info_only_reads_witness :
  get_user_info env_1 "carol" world_alice_bob = (inr None, world_alice_bob)
  /\ result (get_user_info env_1 "alice") (with_users Invalid world_alice)
     = inl JSONDecodeError.
Proof.
  destruct (get_user_info_only_reads env_1 "carol" world_alice_bob)
    as (_ & Hnone & _).
  destruct (get_user_info_only_reads env_1 "alice" (with_users Invalid world_alice))
    as (_ & _ & Hraise).
  split.
  - apply Hnone; [discriminate | reflexivity].
  - unfold result. now rewrite Hraise.
Defined.

(* ------------------------------------------------------------------ *)
(** ** update_xray_users: when it succeeds and when it fails *)

Lemma active_clients_ids entry users :
  active_clients entry users = map entry (active_ids users).
Proof.
  induction users as [|[u r] rest IH]; simpl; [reflexivity|].
  destruct (get "uuid" r); [destruct (unbanned r)|]; simpl; congruence.
Qed.

Lemma set_clients_same i : set_clients i (clients i) = i.
Proof. now destruct i. Qed.

Lemma update_inbound_inr users i i' :
  wf users -> update_inbound users i = inr i' ->
  i' = set_clients i (expected_clients users i).
Proof.
  intros Hwf. unfold update_inbound, expected_clients.
  destruct (String.eqb (protocol i) "vmess").
  { destruct (comprehension vmess_entry users users) eqn:E; intros [= <-].
    apply (comprehension_inr _ _ _ _ Hwf (incl_refl _)) in E.
    now rewrite E, active_clients_ids. }
  destruct (String.eqb (protocol i) "vless").
  { destruct (comprehension vless_entry users users) eqn:E; intros [= <-].
    apply (comprehension_inr _ _ _ _ Hwf (incl_refl _)) in E.
    now rewrite E, active_clients_ids. }
  destruct (String.eqb (protocol i) "trojan").
  { destruct (comprehension trojan_entry users users) eqn:E; intros [= <-].
    apply (comprehension_inr _ _ _ _ Hwf (incl_refl _)) in E.
    now rewrite E, active_clients_ids. }
  intros [= <-]. now rewrite set_clients_same.
Qed.

Lemma update_inbounds_inr users l l' :
  wf users -> update_inbounds users l = inr l' ->
  l' = map (fun i => set_clients i (expected_clients users i)) l.
Proof.
  intros Hwf. revert l'. induction l as [|i l IH]; simpl; intros l'.
  - now intros [= <-].
  - destruct (update_inbound users i) as [|i'] eqn:Ei; [discriminate|].
    destruct (update_inbounds users l) as [|r] eqn:El; [discriminate|].
    intros [= <-]. f_equal.
    + now apply update_inbound_inr.
    + now apply IH.
Qed.

(** X13. When [update_xray_users users] returns [True], the artifact it
    found is rewritten inbound by inbound: a vmess, vless or trojan
    inbound gets one client entry per user that is not banned and has a
    ['uuid'], in the order of the mapping (whatever clients it listed
    before); an inbound of any other protocol keeps its clients.  Ports,
    protocols, stream settings, the number and order of inbounds and the
    outbounds stay as they were.  Exactly one command is run, the xray
    restart, and neither the users file, the stats file nor the log
    changes. *)
Theorem update_xray_users_rewrites_clients
  (users : dict (dict value)) (w : world)
  (Hwf : wf users)
  (Hok : result (update_xray_users users) w = inr true) :
  let w' := after (update_xray_users users) w in
  exists cfg,
    xray_file w = Holds cfg
    /\ xray_file w'
       = Holds (mk_xray (map (fun i => set_clients i (expected_clients users i))
                             (inbounds cfg))
                        (outbounds cfg))
    /\ commands w' = restart_command :: commands w
    /\ errors w' = errors w
    /\ users_file w' = users_file w
    /\ stats_file w' = stats_file w.
Proof.
  cbv zeta. unfold result, after in *. rewrite update_xray_users_eq in *.
  unfold xray_outcome in *.
  destruct (xray_file w) as [| |cfg]; try discriminate.
  destruct (update_inbounds users (inbounds cfg)) as [|l] eqn:E; try discriminate.
  destruct (can_run restart_argv w); try discriminate.
  exists cfg. simpl. rewrite (update_inbounds_inr users _ l Hwf E). auto 7.
Qed.

Lemma update_xray_users_rewrites_clients_witness :
  xray_file (after (update_xray_users (stored_users world_alice)) world_configured)
  = Holds (mk_xray [mk_inbound 443 "vmess" [vmess_entry (VStr "uuid-alice")]
                               "ws" "/vmess"] ["freedom"]).
Proof.
  destruct (update_xray_users_rewrites_clients (stored_users world_alice)
              world_configured wf_singleton eq_refl)
    as (cfg & Hcfg & Hx & _).
  rewrite Hx. injection Hcfg as <-. reflexivity.
Defined.

Lemma comprehension_inl entry users items e :
  wf users -> incl items users ->
  comprehension entry users items = inl e ->
  exists u r, In (u, r) items /\ unbanned r = true /\ get "uuid" r = None.
Proof.
  intros Hwf. revert e.
  induction items as [|[u r] rest IH]; simpl; intros e Hincl.
  - discriminate.
  - assert (Hu : get u users = Some r)
      by (apply In_get; [assumption | apply Hincl; now left]).
    assert (Hrest : incl rest users)
      by (intros x Hx; apply Hincl; now right).
    rewrite (user_uuid_get users u r Hu).
    fold (unbanned r). destruct (unbanned r) eqn:Eb.
    + destruct (get "uuid" r) as [id|] eqn:Eid.
      * destruct (comprehension entry users rest) as [e'|] eqn:Ec; [|discriminate].
        intros _. destruct (IH e' Hrest eq_refl) as (u' & r' & ? & ?).
        exists u', r'. auto.
      * intros _. exists u, r. auto.
    + intros H. destruct (IH e Hrest H) as (u' & r' & ? & ?).
      exists u', r'. auto.
Qed.

Lemma update_inbound_inl users i e :
  update_inbound users i = inl e ->
  managed i = true
  /\ exists entry e', comprehension entry users users = inl e'.
Proof.
  unfold update_inbound, managed.
  destruct (String.eqb (protocol i) "vmess").
  { destruct (comprehension vmess_entry users users) eqn:E; [|discriminate].
    intros _. split; [reflexivity | eauto]. }
  destruct (String.eqb (protocol i) "vless").
  { destruct (comprehension vless_entry users users) eqn:E; [|discriminate].
    intros _. split; [reflexivity | eauto]. }
  destruct (String.eqb (protocol i) "trojan").
  { destruct (comprehension trojan_entry users users) eqn:E; [|discriminate].
    intros _. split; [reflexivity | eauto]. }
  discriminate.
Qed.

Lemma update_inbounds_inl users l e :
  update_inbounds users l = inl e ->
  exists i e', In i l /\ update_inbound users i = inl e'.
Proof.
  revert e. induction l as [|i l IH]; simpl; intros e; [discriminate|].
  destruct (update_inbound users i) as [e'|i'] eqn:Ei.
  - intros _. exists i, e'. auto.
  - destruct (update_inbounds users l) as [e'|] eqn:El; [|discriminate].
    intros _. destruct (IH e' eq_refl) as (i0 & e0 & ? & ?).
    exists i0, e0. auto.
Qed.

Lemma update_inbound_blocked users i u r :
  wf users -> managed i = true ->
  In (u, r) users -> unbanned r = true -> get "uuid" r = None ->
  exists e, update_inbound users i = inl e.
Proof.
  intros Hwf Hm Hin Hub Hno. unfold managed in Hm. unfold update_inbound.
  destruct (String.eqb (protocol i) "vmess").
  { destruct (comprehension_tokenless vmess_entry users users u r Hwf
                (incl_refl _) Hin Hub Hno) as [e ->]. eauto. }
  destruct (String.eqb (protocol i) "vless").
  { destruct (comprehension_tokenless vless_entry users users u r Hwf
                (incl_refl _) Hin Hub Hno) as [e ->]. eauto. }
  destruct (String.eqb (protocol i) "trojan").
  { destruct (comprehension_tokenless trojan_entry users users u r Hwf
                (incl_refl _) Hin Hub Hno) as [e ->]. eauto. }
  discriminate.
Qed.

Lemma update_inbounds_blocked users l i e :
  In i l -> update_inbound users i = inl e ->
  exists e', update_inbounds users l = inl e'.
Proof.
  induction l as [|j l IH]; simpl; [contradiction|].
  intros [->|Hin] Hi.
  - rewrite Hi. eauto.
  - destruct (update_inbound users j); [eauto|].
    destruct (IH Hin Hi) as [e' ->]. eauto.
Qed.

(** X14. [update_xray_users users] returns [False] in exactly three
    situations: the artifact is absent or cannot be parsed; or it has a
    vmess, vless or trojan inbound while some user that is not banned
    has no ['uuid']; or [systemctl] cannot be started.  In the first two
    it leaves the artifact and everything else as it was and adds one
    line to the log.  In the third alone, the artifact has already been
    rewritten (as a successful call rewrites it) when the restart
    raises; no command is recorded and one line is added to the log. *)
Theorem update_xray_users_fails_iff
  (users : dict (dict value)) (w : world)
  (Hwf : wf users) :
  let blocked :=
    (forall cfg, xray_file w <> Holds cfg)
    \/ (exists cfg i u r,
           xray_file w = Holds cfg /\ In i (inbounds cfg) /\ managed i = true
           /\ In (u, r) users /\ unbanned r = true /\ get "uuid" r = None) in
  (result (update_xray_users users) w = inr false <->
   blocked \/ can_run restart_argv w = false)
  /\ (blocked -> after (update_xray_users users) w = with_error xray_error w)
  /\ (~ blocked -> can_run restart_argv w = false ->
      exists cfg,
        xray_file w = Holds cfg
        /\ after (update_xray_users users) w
           = mk_world (users_file w) (stats_file w)
               (Holds (mk_xray (map (fun i => set_clients i (expected_clients users i))
                                    (inbounds cfg))
                               (outbounds cfg)))
               (commands w) (xray_error :: errors w) (host w)).
Proof.
  cbv zeta. unfold result, after. rewrite update_xray_users_eq. unfold xray_outcome.
  destruct (xray_file w) as [| |cfg] eqn:F.
  - repeat split; auto.
    + left. left. discriminate.
    + intros Hnb. exfalso. apply Hnb. left. discriminate.
  - repeat split; auto.
    + left. left. discriminate.
    + intros Hnb. exfalso. apply Hnb. left. discriminate.
  - destruct (update_inbounds users (inbounds cfg)) as [e|l] eqn:E.
    + assert (Hb : exists cfg0 i u r,
                 Holds cfg = Holds cfg0 /\ In i (inbounds cfg0)
                 /\ managed i = true /\ In (u, r) users
                 /\ unbanned r = true /\ get "uuid" r = None).
      { destruct (update_inbounds_inl users _ e E) as (i & e' & Hi & He').
        destruct (update_inbound_inl users i e' He') as (Hm & entry & e2 & Hc).
        destruct (comprehension_inl entry users users e2 Hwf (incl_refl _) Hc)
          as (u & r & Hin & Hub & Hno).
        exists cfg, i, u, r. auto 7. }
      repeat split; auto.
      intros Hnb. exfalso. apply Hnb. now right.
    + assert (Hnb : ~ ((forall cfg0, Holds cfg <> Holds cfg0)
                       \/ (exists cfg0 i u r,
                              Holds cfg = Holds cfg0 /\ In i (inbounds cfg0)
                              /\ managed i = true /\ In (u, r) users
                              /\ unbanned r = true /\ get "uuid" r = None))).
      { intros [Hnone | (cfg' & i & u & r & Hc & Hi & Hm & Hin & Hub & Hno)].
        - now apply (Hnone cfg).
        - injection Hc as <-.
          destruct (update_inbound_blocked users i u r Hwf Hm Hin Hub Hno)
            as [e He].
          destruct (update_inbounds_blocked users _ i e Hi He) as [e' He'].
          congruence. }
      rewrite (update_inbounds_inr users _ l Hwf E).
      destruct (can_run restart_argv w) eqn:Hrun; simpl.
      * repeat split; try tauto; try discriminate.
        intros [Hb | Hf]; [contradiction | discriminate].
      * repeat split; try tauto.
        intros _ _. exists cfg. auto.
Qed.

Lemma wf_bob_alice : wf (stored_users world_bob_alice).
Proof.
  unfold wf. simpl. repeat constructor; simpl; intuition discriminate.
Qed.

Lemma update_xray_users_fails_iff_witness :
  result (update_xray_users (stored_users world_bob_alice)) world_bob_alice
  = inr false
  /\ after (update_xray_users (stored_users world_bob_alice)) world_bob_alice
     = with_error xray_error world_bob_alice.
Proof.
  destruct (update_xray_users_fails_iff (stored_users world_bob_alice)
              world_bob_alice wf_bob_alice) as (Hiff & Hafter & _).
  assert (Hb : (forall cfg, xray_file world_bob_alice <> Holds cfg)
               \/ (exists cfg i u r,
                      xray_file world_bob_alice = Holds cfg
                      /\ In i (inbounds cfg) /\ managed i = true
                      /\ In (u, r) (stored_users world_bob_alice)
                      /\ unbanned r = true /\ get "uuid" r = None)).
  { right.
    exists (mk_xray [mk_inbound 443 "vmess" [] "ws" "/vmess"] ["freedom"]),
      (mk_inbound 443 "vmess" [] "ws" "/vmess"), "bob",
      (new_user_data env_2 "pw" None).
    repeat split; try reflexivity; simpl; auto. }
  split; [apply Hiff; now left | exact (Hafter Hb)].
Defined.

(* ------------------------------------------------------------------ *)
(** ** configure_xray *)

Lemma xray_layout_inbounds xport protocols :
  (forall i, In i (inbounds (xray_layout xport protocols)) ->
             clients i = []
             /\ ((protocol i = "vmess" /\ port i = xport)
                 \/ (protocol i = "vless" /\ port i = xport + 1)
                 \/ (protocol i = "trojan" /\ port i = xport + 2)))
  /\ NoDup (map port (inbounds (xray_layout xport protocols)))
  /\ NoDup (map protocol (inbounds (xray_layout xport protocols))).
Proof.
  unfold xray_layout.
  destruct (enabled protocols "vmess" true),
           (enabled protocols "vless" false),
           (enabled protocols "trojan" false); simpl.
  all: split;
    [ intros i Hi;
      repeat (destruct Hi as [<-|Hi]; [simpl; auto 6|]); contradiction
    | split;
      repeat (constructor; [simpl; intuition (try lia; try discriminate)|]);
      constructor ].
Qed.

(** X15. [configure_xray] returns [True] exactly when the directory of
    the artifact exists and [systemctl] can be started.  Without the
    directory it writes nothing: one line is added to the log and
    nothing else changes.  With the directory it writes, also when the
    restart then fails, an artifact whose inbounds are among vmess on
    the given port, vless on the next port and trojan on the one after,
    each at most once, every one with an empty client list: whatever
    clients the artifact listed before are gone, so no token is
    authorised until [update_xray_users] runs.  The users file and the
    stats file are never touched. *)
Theorem configure_xray_resets_clients
  (xport : Z) (protocols : dict (dict value)) (w : world) :
  let w' := after (configure_xray xport protocols) w in
  (result (configure_xray xport protocols) w = inr true <->
   xray_writable w = true /\ can_run restart_argv w = true)
  /\ (xray_writable w = false -> w' = with_error "Error configuring Xray" w)
  /\ (xray_writable w = true ->
      (exists cfg,
          xray_file w' = Holds cfg
          /\ outbounds cfg = ["freedom"]
          /\ (forall i, In i (inbounds cfg) ->
                        clients i = []
                        /\ ((protocol i = "vmess" /\ port i = xport)
                            \/ (protocol i = "vless" /\ port i = xport + 1)
                            \/ (protocol i = "trojan" /\ port i = xport + 2)))
          /\ NoDup (map port (inbounds cfg))
          /\ NoDup (map protocol (inbounds cfg)))
      /\ (forall t, token_absent t w'))
  /\ users_file w' = users_file w
  /\ stats_file w' = stats_file w.
Proof.
  cbv zeta. unfold result. rewrite xray_file_after_configure.
  unfold after, token_absent. rewrite configure_xray_eq.
  destruct (xray_layout_inbounds xport protocols) as (Hin & Hports & Hprot).
  destruct (xray_writable w); [destruct (can_run restart_argv w)|]; simpl.
  all: repeat split; auto; try discriminate; try tauto.
  all: try (intros [? ?]; discriminate).
  all: try (exists (xray_layout xport protocols); repeat split; auto;
            apply Hin; assumption).
  all: intros t cfg i c [= <-] Hi _ Hc;
    destruct (Hin i Hi) as [Hnil _]; rewrite Hnil in Hc; contradiction.
Qed.

Lemma configure_xray_resets_clients_witness :
  result (configure_xray 443 []) world_fresh = inr true
  /\ after (configure_xray 443 []) world_bare
     = with_error "Error configuring Xray" world_bare.
Proof.
  destruct (configure_xray_resets_clients 443 [] world_fresh) as (Hiff & _).
  destruct (configure_xray_resets_clients 443 [] world_bare) as (_ & Hbare & _).
  split.
  - apply Hiff. split; reflexivity.
  - apply Hbare. reflexivity.
Defined.

(* ------------------------------------------------------------------ *)
(** ** _get_active_xray_users *)

Lemma client_ids_with_id entry ids :
  entry = vmess_entry \/ entry = vless_entry ->
  client_ids (map entry ids) = inr ids.
Proof.
  intros He. induction ids as [|id ids IH]; simpl; [reflexivity|].
  rewrite IH. destruct He as [-> | ->]; reflexivity.
Qed.

Lemma client_ids_trojan id ids :
  client_ids (map trojan_entry (id :: ids)) = inl (KeyError "id").
Proof. reflexivity. Qed.

Lemma inbound_ids_blocked l i e :
  In i l -> client_ids (clients i) = inl e ->
  exists e', inbound_ids l = inl e'.
Proof.
  induction l as [|j l IH]; simpl; [contradiction|].
  intros [->|Hin] Hi.
  - rewrite Hi. eauto.
  - destruct (client_ids (clients j)); [eauto|].
    destruct (IH Hin Hi) as [e' ->]. eauto.
Qed.

Lemma inbound_ids_rewritten users l :
  (forall i, In i l -> protocol i = "vmess" \/ protocol i = "vless") ->
  inbound_ids (map (fun i => set_clients i (expected_clients users i)) l)
  = inr (flat_map (fun _ => active_ids users) l).
Proof.
  induction l as [|i l IH]; simpl; intros Hp; [reflexivity|].
  rewrite IH by (intros j Hj; apply Hp; now right).
  unfold expected_clients.
  destruct (Hp i (or_introl eq_refl)) as [-> | ->]; simpl;
    rewrite client_ids_with_id by auto; reflexivity.
Qed.

(** X16. After a successful [update_xray_users] on an artifact whose
    inbounds are all vmess or vless, [_get_active_xray_users] returns,
    inbound after inbound, the tokens of the users that are not banned
    and have one, in the order of the mapping; it changes nothing. *)
Theorem active_xray_users_lists_tokens
  (users : dict (dict value)) (w : world) (cfg : xray_doc)
  (Hwf : wf users)
  (Hok : result (update_xray_users users) w = inr true)
  (Hcfg : xray_file w = Holds cfg)
  (Hprotocols : forall i, In i (inbounds cfg) ->
                          protocol i = "vmess" \/ protocol i = "vless") :
  let w' := after (update_xray_users users) w in
  _get_active_xray_users w'
  = (inr (flat_map (fun _ => active_ids users) (inbounds cfg)), w').
Proof.
  cbv zeta. unfold result, after in *. rewrite update_xray_users_eq in *.
  unfold xray_outcome in *. rewrite Hcfg in *.
  destruct (update_inbounds users (inbounds cfg)) as [|l] eqn:E; [discriminate|].
  destruct (can_run restart_argv w); [|discriminate].
  rewrite (update_inbounds_inr users _ l Hwf E). simpl snd.
  unfold _get_active_xray_users, try_except, bind, load_xray, lift. simpl.
  now rewrite (inbound_ids_rewritten users _ Hprotocols).
Qed.

Lemma active_xray_users_lists_tokens_witness :
  result _get_active_xray_users
         (after (update_xray_users (stored_users world_alice)) world_configured)
  = inr [VStr "uuid-alice"].
Proof.
  unfold result.
  rewrite (active_xray_users_lists_tokens (stored_users world_alice)
             world_configured
             (mk_xray [mk_inbound 443 "vmess" [] "ws" "/vmess"] ["freedom"])
             wf_singleton eq_refl eq_refl).
  - reflexivity.
  - intros i [<-|[]]. now left.
Defined.

(** X17. After a successful [update_xray_users] on an artifact that has
    a trojan inbound, with at least one user that is not banned and has
    a token, [_get_active_xray_users] returns the empty list and logs an
    error: the trojan client entries have a ['password'] and no ['id'],
    and the missing key makes the whole listing fail, the vmess and
    vless clients included. *)
Theorem trojan_entries_hide_active_users
  (users : dict (dict value)) (w : world) (cfg : xray_doc) (i : inbound)
  (Hwf : wf users)
  (Hok : result (update_xray_users users) w = inr true)
  (Hcfg : xray_file w = Holds cfg)
  (Hin : In i (inbounds cfg))
  (Htrojan : protocol i = "trojan")
  (Hactive : active_ids users <> []) :
  let w' := after (update_xray_users users) w in
  _get_active_xray_users w'
  = (inr [], with_error "Error getting active Xray users" w').
Proof.
  cbv zeta. unfold result, after in *. rewrite update_xray_users_eq in *.
  unfold xray_outcome in *. rewrite Hcfg in *.
  destruct (update_inbounds users (inbounds cfg)) as [|l] eqn:E; [discriminate|].
  destruct (can_run restart_argv w); [|discriminate].
  rewrite (update_inbounds_inr users _ l Hwf E). simpl snd.
  unfold _get_active_xray_users, try_except, bind, load_xray, lift. simpl.
  destruct (inbound_ids_blocked
              (map (fun j => set_clients j (expected_clients users j)) (inbounds cfg))
              (set_clients i (expected_clients users i)) (KeyError "id"))
    as [e' ->]; [| |reflexivity].
  - apply in_map_iff. exists i. auto.
  - simpl. unfold expected_clients. rewrite Htrojan. simpl.
    destruct (active_ids users); [contradiction | reflexivity].
Qed.

Lemma wf_trojan : wf (stored_users world_trojan).
Proof.
  unfold wf. simpl. constructor; [simpl; tauto | constructor].
Qed.

Lemma trojan_entries_hide_active_users_witness :
  result _get_active_xray_users
         (after (update_xray_users (stored_users world_trojan)) world_trojan)
  = inr [].
Proof.
  unfold result.
  rewrite (trojan_entries_hide_active_users (stored_users world_trojan)
             world_trojan
             (mk_xray [mk_inbound 443 "vmess" [vmess_entry (VStr "uuid-alice")]
                                  "ws" "/vmess";
                       mk_inbound 445 "trojan" [trojan_entry (VStr "uuid-alice")]
                                  "ws" "/trojan"] ["freedom"])
             (mk_inbound 445 "trojan" [trojan_entry (VStr "uuid-alice")]
                         "ws" "/trojan")
             wf_trojan eq_refl eq_refl).
  - reflexivity.
  - right. left. reflexivity.
  - reflexivity.
  - discriminate.
Defined.

(* ------------------------------------------------------------------ *)
(** ** The artifact after ban, change_uuid and delete *)

(** X18. [ban_user] and [unban_user] with a service other than ['xray']
    never touch the xray artifact: the stored flag changes, but a token
    the artifact lists stays listed (and one it lacks stays absent)
    until some later operation regenerates it. *)
Theorem flag_without_xray_keeps_artifact (e : env) (u s : string) (w : world)
  (Hs : s <> "xray") :
  xray_file (after (ban_user e u s) w) = xray_file w
  /\ xray_file (after (unban_user u s) w) = xray_file w
  /\ (forall t, token_present t w -> token_present t (after (ban_user e u s) w)).
Proof.
  apply String.eqb_neq in Hs.
  assert (Hb : xray_file (after (ban_user e u s) w) = xray_file w).
  { unfold after, ban_user, try_except, bind, _load_users, set_field, mem.
    destruct (users_file w) as [| |users]; simpl; try reflexivity.
    destruct (get u users) as [r|]; simpl; try reflexivity.
    rewrite get_set_same. simpl. rewrite Hs.
    destruct (String.eqb s "ssh");
      [rewrite subprocess_run_eq; destruct (can_run _ _)|]; reflexivity. }
  split; [exact Hb|]. split.
  - unfold after, unban_user, try_except, bind, _load_users, set_field, mem.
    destruct (users_file w) as [| |users]; simpl; try reflexivity.
    destruct (get u users) as [r|]; simpl; try reflexivity.
    rewrite get_set_same. simpl. rewrite Hs.
    destruct (String.eqb s "ssh");
      [rewrite subprocess_run_eq; destruct (can_run _ _)|]; reflexivity.
  - intros t. unfold token_present. now rewrite Hb.
Qed.

Lemma flag_without_xray_keeps_artifact_witness :
  result (ban_user env_2 "alice" "ssh") world_alice = inr true
  /\ user_field (after (ban_user env_2 "alice" "ssh") world_alice)
                "alice" "banned" = Some (VBool true)
  /\ xray_file (after (ban_user env_2 "alice" "ssh") world_alice)
     = xray_file world_alice.
Proof.
  split; [reflexivity|]. split; [reflexivity|].
  apply (flag_without_xray_keeps_artifact env_2 "alice" "ssh" world_alice).
  discriminate.
Defined.

Lemma applied_token_absent users' w0 w t :
  wf users' -> errors w0 = errors w ->
  ~ apply_failed w (after (update_xray_users users') w0) ->
  (forall u r, In (u, r) users' -> unbanned r = true -> get "uuid" r <> Some t) ->
  token_absent t (after (update_xray_users users') w0).
Proof.
  intros Hwf He Hok Hnone.
  destruct (apply_not_failed users' w0 w He Hok) as (cfg & l & _ & Hl & Hx & _).
  intros cfg' i c Hx' Hi Hm Hc Hcar.
  rewrite Hx in Hx'. injection Hx' as <-. simpl in Hi.
  destruct (update_inbounds_In users' _ l i Hl Hi) as (i0 & _ & Hi0).
  destruct (update_inbound_managed users' i0 i Hi0 Hm) as (entry & Hentry & Hcomp).
  apply (comprehension_inr entry users' users' _ Hwf (incl_refl _)) in Hcomp.
  rewrite Hcomp in Hc.
  destruct (In_active_clients entry users' c Hc)
    as (u' & r' & id & Hin & Hub & Hid & ->).
  apply (carries_entry entry t id Hentry) in Hcar. subst id.
  exact (Hnone u' r' Hin Hub Hid).
Qed.

Lemma applied_token_present users' w0 w t u r :
  wf users' -> errors w0 = errors w ->
  ~ apply_failed w (after (update_xray_users users') w0) ->
  In (u, r) users' -> unbanned r = true -> get "uuid" r = Some t ->
  token_present t (after (update_xray_users users') w0).
Proof.
  intros Hwf He Hok Hin Hub Hid.
  destruct (apply_not_failed users' w0 w He Hok) as (cfg & l & _ & Hl & Hx & _).
  exists (mk_xray l (outbounds cfg)). split; [assumption|].
  simpl. intros i Hi Hm.
  destruct (update_inbounds_In users' _ l i Hl Hi) as (i0 & _ & Hi0).
  destruct (update_inbound_managed users' i0 i Hi0 Hm) as (entry & Hentry & Hcomp).
  apply (comprehension_inr entry users' users' _ Hwf (incl_refl _)) in Hcomp.
  exists (entry t). split.
  - rewrite Hcomp. now apply (active_clients_In entry users' u r t).
  - now apply carries_entry.
Qed.

Lemma change_uuid_xray_eq e u w r :
  users_file w <> Invalid -> get u (stored_users w) = Some r ->
  let users' := set u (set "uuid" (VStr (uuid4 e)) r) (stored_users w) in
  change_uuid e u w =
  (inr true,
   after (update_xray_users users')
         (mk_world (Holds users') (stats_file w) (xray_file w)
                   (commands w) (errors w) (host w))).
Proof.
  intros Hv Hr. unfold change_uuid, try_except, bind, set_field, after.
  rewrite (load_users_eq w Hv). unfold mem. rewrite Hr. simpl.
  destruct (update_xray_users_total
              (set u (set "uuid" (VStr (uuid4 e)) r) (stored_users w))
              (mk_world
                 (Holds (set u (set "uuid" (VStr (uuid4 e)) r) (stored_users w)))
                 (stats_file w) (xray_file w) (commands w) (errors w) (host w)))
    as (b & w' & E & _).
  unfold with_users at 1 2. simpl. rewrite E. reflexivity.
Qed.

Lemma get_valid w u (r : dict value) :
  get u (stored_users w) = Some r -> users_file w <> Invalid.
Proof.
  unfold stored_users. intros H Hi. rewrite Hi in H. discriminate.
Qed.

(** X19. [change_uuid] on a stored user that is not banned returns
    [True] and stores the fresh token.  If the [update_xray_users] it
    calls did not fail, every vmess, vless and trojan client list of the
    artifact then holds the fresh token, and holds no token that differs
    from the fresh one and that no other user carries; the token
    the user had before is such a token, so it is revoked. *)
Theorem change_uuid_rotates_token
  (e : env) (u : string) (r : dict value) (t_old : value) (w : world)
  (Hwf : wf (stored_users w))
  (Hstored : get u (stored_users w) = Some r)
  (Hunbanned : unbanned r = true)
  (Hothers : forall u' r', u' <> u -> get u' (stored_users w) = Some r' ->
                           get "uuid" r' <> Some t_old)
  (Hfresh : VStr (uuid4 e) <> t_old)
  (Happlied : ~ apply_failed w (after (change_uuid e u) w)) :
  let w' := after (change_uuid e u) w in
  result (change_uuid e u) w = inr true
  /\ user_field w' u "uuid" = Some (VStr (uuid4 e))
  /\ token_present (VStr (uuid4 e)) w'
  /\ token_absent t_old w'.
Proof.
  cbv zeta.
  pose proof (change_uuid_xray_eq e u w r (get_valid w u r Hstored) Hstored) as Heq.
  cbv zeta in Heq. unfold result, after in *. rewrite Heq in *. simpl fst. simpl snd.
  simpl snd in Happlied.
  set (users' := set u (set "uuid" (VStr (uuid4 e)) r) (stored_users w)) in *.
  assert (Hwf' : wf users') by (apply wf_set; assumption).
  assert (Hu : get u users' = Some (set "uuid" (VStr (uuid4 e)) r))
    by apply get_set_same.
  assert (Hub' : unbanned (set "uuid" (VStr (uuid4 e)) r) = true).
  { unfold unbanned in *. now rewrite get_set_other by discriminate. }
  fold (after (update_xray_users users')
              (mk_world (Holds users') (stats_file w) (xray_file w)
                        (commands w) (errors w) (host w))) in *.
  set (w0 := mk_world (Holds users') (stats_file w) (xray_file w)
                      (commands w) (errors w) (host w)) in *.
  assert (He : errors w0 = errors w) by reflexivity.
  split; [reflexivity|]. split; [|split].
  - destruct (apply_not_failed users' w0 w He Happlied)
      as (_ & _ & _ & _ & _ & Hf).
    unfold user_field. rewrite (stored_users_holds _ users' Hf), Hu.
    apply get_set_same.
  - apply (applied_token_present users' w0 w _ u _ Hwf' He Happlied
             (get_In _ _ _ Hu) Hub').
    apply get_set_same.
  - apply (applied_token_absent users' w0 w _ Hwf' He Happlied).
    intros u' r' Hin Hub Hid.
    apply (In_get u' r' users' Hwf') in Hin.
    destruct (string_dec u' u) as [->|Hne].
    + rewrite Hu in Hin. injection Hin as <-.
      rewrite get_set_same in Hid. congruence.
    + unfold users' in Hin. rewrite get_set_other in Hin by congruence.
      exact (Hothers u' r' Hne Hin Hid).
Qed.

Lemma change_uuid_rotates_token_witness :
  token_present (VStr "uuid-bob") (after (change_uuid env_2 "alice") world_alice)
  /\ token_absent (VStr "uuid-alice") (after (change_uuid env_2 "alice") world_alice).
Proof.
  assert (Hothers : forall u' r', u' <> "alice" ->
            get u' (stored_users world_alice) = Some r' ->
            get "uuid" r' <> Some (VStr "uuid-alice")).
  { intros u' r' Hne. simpl.
    destruct (String.eqb u' "alice") eqn:E; [|discriminate].
    apply String.eqb_eq in E. contradiction. }
  assert (Happlied : ~ apply_failed world_alice
                       (after (change_uuid env_2 "alice") world_alice)).
  { unfold apply_failed. vm_compute. lia. }
  destruct (change_uuid_rotates_token env_2 "alice"
              (set "uuid" (VStr "uuid-alice") (new_user_data env_1 "pw" (Some 5)))
              (VStr "uuid-alice") world_alice
              wf_singleton eq_refl eq_refl Hothers ltac:(discriminate) Happlied)
    as (_ & _ & Hp & Ha).
  split; [exact Hp | exact Ha].
Defined.

(* ------------------------------------------------------------------ *)
(** ** delete_user *)

Lemma delete_user_eq e u w :
  users_file w <> Invalid -> mem u (stored_users w) = true ->
  can_run (userdel_argv u) w = true ->
  let users' := del u (stored_users w) in
  delete_user e u w =
  (inr true,
   after (reset_user_traffic e u)
         (after (update_xray_users users')
                (mk_world (Holds users') (stats_file w) (xray_file w)
                          (userdel_command u :: commands w) (errors w) (host w)))).
Proof.
  intros Hv Hm Hrun. unfold delete_user, try_except, bind, after.
  rewrite (load_users_eq w Hv), Hm. simpl.
  fold (userdel_argv u). rewrite subprocess_run_eq, Hrun. simpl.
  destruct (update_xray_users_total
              (del u (stored_users w))
              (mk_world (Holds (del u (stored_users w))) (stats_file w)
                        (xray_file w) (userdel_command u :: commands w)
                        (errors w) (host w)))
    as (b & w' & E & _).
  unfold userdel_command, userdel_argv in *.
  unfold with_command, with_users at 1 2. simpl.
  rewrite E. simpl.
  destruct (reset_user_traffic_total e u w') as (b2 & w2 & E2 & _).
  rewrite E2. reflexivity.
Qed.

Lemma reset_user_traffic_frame e u w :
  users_file (after (reset_user_traffic e u) w) = users_file w
  /\ xray_file (after (reset_user_traffic e u) w) = xray_file w
  /\ commands (after (reset_user_traffic e u) w) = commands w
  /\ (errors (after (reset_user_traffic e u) w) = errors w
      \/ errors (after (reset_user_traffic e u) w)
         = "Error resetting user traffic" :: errors w)
  /\ (forall other, other <> u ->
        get other (stored_stats (after (reset_user_traffic e u) w))
        = get other (stored_stats w))
  /\ (stats_file w <> Invalid -> mem u (stored_stats w) = true ->
      get u (stored_stats (after (reset_user_traffic e u) w))
      = Some (mk_traffic 0 0 (now e))).
Proof.
  unfold after. rewrite reset_user_traffic_eq.
  destruct (stats_file w) eqn:F; [| |];
    try destruct (mem u (stored_stats w)) eqn:Em; simpl;
    rewrite ?stored_stats_mk; repeat split; auto; try congruence.
  all: try (intros other Hne; apply get_set_other; congruence).
  all: try (intros; apply get_set_same).
  all: unfold stored_stats; simpl; rewrite F; reflexivity.
Qed.

Lemma update_xray_users_frame users w :
  users_file (after (update_xray_users users) w) = users_file w
  /\ stats_file (after (update_xray_users users) w) = stats_file w
  /\ (commands (after (update_xray_users users) w) = commands w
      \/ commands (after (update_xray_users users) w)
         = restart_command :: commands w).
Proof.
  unfold after. rewrite update_xray_users_eq.
  destruct (xray_outcome users w); [destruct (can_run restart_argv w)|];
    simpl; auto.
Qed.

(** X20. A [delete_user] that returns [True] removes the user's record
    and no other, and runs [userdel -r] on the name whatever service the
    user was created for.  The user's traffic entry is not removed: when
    the stats file is readable and tracks the user, the entry stays with
    both counters at 0 and [last_reset] at the time of the deletion; no
    other traffic entry changes. *)
Theorem delete_user_removes_record (e : env) (u : string) (w : world)
  (Hwf : wf (stored_users w))
  (Hok : result (delete_user e u) w = inr true) :
  let w' := after (delete_user e u) w in
  get u (stored_users w') = None
  /\ (forall other, other <> u ->
                    get other (stored_users w') = get other (stored_users w))
  /\ In (userdel_command u) (commands w')
  /\ (forall other, other <> u ->
                    get other (stored_stats w') = get other (stored_stats w))
  /\ (stats_file w <> Invalid -> mem u (stored_stats w) = true ->
      get u (stored_stats w') = Some (mk_traffic 0 0 (now e))).
Proof.
  cbv zeta.
  destruct (run_op_true (DeleteUser e u) w Hok) as (Hv & us & Hs & Hf).
  simpl in Hs, Hf.
  destruct (mem u (stored_users w)) eqn:Em; [|discriminate].
  injection Hs as <-.
  pose proof (delete_user_eq e u w Hv Em
                (run_op_true_tools (DeleteUser e u) w Hok)) as Heq.
  cbv zeta in Heq.
  split; [|split].
  - rewrite (stored_users_holds _ _ Hf). now apply get_del_same.
  - intros other Hne. rewrite (stored_users_holds _ _ Hf).
    apply get_del_other. congruence.
  - unfold after at 1 2 3. rewrite Heq. simpl snd.
    set (w0 := mk_world (Holds (del u (stored_users w))) (stats_file w)
                        (xray_file w) (userdel_command u :: commands w)
                        (errors w) (host w)).
    destruct (update_xray_users_frame (del u (stored_users w)) w0)
      as (_ & Hst & Hcmd).
    destruct (reset_user_traffic_frame e u
                (after (update_xray_users (del u (stored_users w))) w0))
      as (_ & _ & Hc & _ & Hothers & Hzero).
    assert (Hss : stored_stats (after (update_xray_users (del u (stored_users w))) w0)
                  = stored_stats w).
    { unfold stored_stats. now rewrite Hst. }
    rewrite Hss in Hothers, Hzero. rewrite Hst in Hzero.
    split; [|split]; auto.
    rewrite Hc. destruct Hcmd as [-> | ->]; simpl; auto.
Qed.

Lemma delete_user_removes_record_witness :
  get "bob" (stored_users (after (delete_user env_1 "bob") world_traffic)) = None
  /\ get "bob" (stored_stats (after (delete_user env_1 "bob") world_traffic))
     = Some (mk_traffic 0 0 "2024-05-01T10:00:00").
Proof.
  assert (Hwf : wf (stored_users world_traffic)).
  { unfold wf. simpl. repeat constructor; simpl; intuition discriminate. }
  destruct (delete_user_removes_record env_1 "bob" world_traffic Hwf eq_refl)
    as (Hgone & _ & _ & _ & Hzero).
  split; [exact Hgone|].
  apply Hzero; [discriminate | reflexivity].
Defined.

Lemma In_del {A} k k' (v : A) d :
  wf d -> In (k', v) (del k d) -> k' <> k /\ get k' d = Some v.
Proof.
  intros Hwf Hin.
  apply (In_get k' v (del k d) (wf_del k d Hwf)) in Hin.
  destruct (string_dec k' k) as [->|Hne].
  - rewrite get_del_same in Hin by assumption. discriminate.
  - split; [assumption|]. now rewrite get_del_other in Hin by congruence.
Qed.

Lemma apply_failed_after_reset e u w w1 :
  apply_failed w (after (reset_user_traffic e u) w1) <-> apply_failed w w1.
Proof.
  unfold apply_failed.
  destruct (reset_user_traffic_frame e u w1) as (_ & _ & _ & [-> | ->] & _).
  - tauto.
  - rewrite count_occ_cons_neq by discriminate. tauto.
Qed.

(** X21. A [delete_user] that returns [True] and whose
    [update_xray_users] did not fail leaves no vmess, vless or trojan
    client list holding a token that none of the remaining users
    carries; the deleted user's own token is revoked unless another user
    shares it. *)
Theorem delete_user_revokes_token (e : env) (u : string) (t : value) (w : world)
  (Hwf : wf (stored_users w))
  (Hok : result (delete_user e u) w = inr true)
  (Hothers : forall u' r', u' <> u -> get u' (stored_users w) = Some r' ->
                           get "uuid" r' <> Some t)
  (Happlied : ~ apply_failed w (after (delete_user e u) w)) :
  token_absent t (after (delete_user e u) w).
Proof.
  destruct (run_op_true (DeleteUser e u) w Hok) as (Hv & us & Hs & _).
  cbn [store_step] in Hs.
  destruct (mem u (stored_users w)) eqn:Hstored; [|discriminate]. clear Hs us.
  pose proof (delete_user_eq e u w Hv Hstored
                (run_op_true_tools (DeleteUser e u) w Hok)) as Heq.
  cbv zeta in Heq. unfold after in *. rewrite Heq in *.
  simpl snd in *.
  set (users' := del u (stored_users w)) in *.
  set (w0 := mk_world (Holds users') (stats_file w) (xray_file w)
                      (userdel_command u :: commands w) (errors w) (host w)) in *.
  fold (after (update_xray_users users') w0) in *.
  fold (after (reset_user_traffic e u) (after (update_xray_users users') w0)) in *.
  rewrite apply_failed_after_reset in Happlied.
  assert (He : errors w0 = errors w) by reflexivity.
  assert (Habs : token_absent t (after (update_xray_users users') w0)).
  { apply (applied_token_absent users' w0 w t (wf_del u _ Hwf) He Happlied).
    intros u' r' Hin _ Hid.
    destruct (In_del u u' r' (stored_users w) Hwf Hin) as [Hne Hg].
    exact (Hothers u' r' Hne Hg Hid). }
  destruct (reset_user_traffic_frame e u (after (update_xray_users users') w0))
    as (_ & Hx & _).
  unfold token_absent in *. rewrite Hx. exact Habs.
Qed.

Lemma delete_user_revokes_token_witness :
  token_present (VStr "uuid-alice") world_alice
  /\ token_absent (VStr "uuid-alice") (after (delete_user env_2 "alice") world_alice).
Proof.
  split.
  - eexists. split; [reflexivity|]. simpl. intros i [<-|[]] _.
    eexists. split; [left; reflexivity | left; reflexivity].
  - apply (delete_user_revokes_token env_2 "alice" (VStr "uuid-alice") world_alice
             wf_singleton eq_refl).
    + intros u' r' Hne. simpl.
      destruct (String.eqb u' "alice") eqn:E; [|discriminate].
      apply String.eqb_eq in E. contradiction.
    + unfold apply_failed. vm_compute. lia.
Defined.

(* ------------------------------------------------------------------ *)
(** ** add_user beside the backends *)

(** X22. Once [add_user] has returned [True] for a name, any further
    [add_user] for that name (same or different password, service and
    quota) returns [False] and changes nothing: the call cannot be
    repeated to apply the same user again. *)
Theorem add_user_cannot_be_repeated
  (e e' : env) (u p p' s s' : string) (q q' : option Z) (w : world)
  (Hok : result (add_user e u p s q) w = inr true) :
  let w' := after (add_user e u p s q) w in
  add_user e' u p' s' q' w' = (inr false, w').
Proof.
  cbv zeta.
  destruct (run_op_true (AddUser e u p s q) w Hok) as (_ & us & Hs & Hf).
  simpl in Hs, Hf. destruct (mem u (stored_users w)); [discriminate|].
  injection Hs as <-.
  assert (Hv : users_file (after (add_user e u p s q) w) <> Invalid)
    by (rewrite Hf; discriminate).
  pose proof (run_op_store (AddUser e' u p' s' q') _ Hv) as H.
  simpl in H. rewrite (stored_users_holds _ _ Hf) in H.
  unfold mem in H. now rewrite get_set_same in H.
Qed.

Lemma add_user_cannot_be_repeated_witness :
  add_user env_2 "alice" "pw" "xray" (Some 5) world_alice = (inr false, world_alice).
Proof.
  apply (add_user_cannot_be_repeated env_1 env_2 "alice" "pw" "pw" "xray" "xray"
           (Some 5) (Some 5) world_configured).
  reflexivity.
Defined.

Lemma update_user_traffic_frame e u a b w :
  users_file (after (update_user_traffic e u a b) w) = users_file w
  /\ xray_file (after (update_user_traffic e u a b) w) = xray_file w
  /\ commands (after (update_user_traffic e u a b) w) = commands w
  /\ (errors (after (update_user_traffic e u a b) w) = errors w
      \/ errors (after (update_user_traffic e u a b) w)
         = "Error updating user traffic" :: errors w).
Proof.
  unfold after. rewrite update_user_traffic_eq.
  destruct (stats_file w); simpl; auto.
Qed.

Lemma add_user_xray_eq e u p q w :
  users_file w <> Invalid -> mem u (stored_users w) = false ->
  let users' := set u (set "uuid" (VStr (uuid4 e)) (new_user_data e p q))
                    (stored_users w) in
  add_user e u p "xray" q w =
  (inr true,
   after (update_user_traffic (tick e) u 0 0)
         (after (update_xray_users users')
                (mk_world (Holds users') (stats_file w) (xray_file w)
                          (commands w) (errors w) (host w)))).
Proof.
  intros Hv Hm. unfold add_user, try_except, bind, after.
  rewrite (load_users_eq w Hv), Hm.
  change (String.eqb "xray" "xray") with true.
  change (String.eqb "xray" "ssh") with false. cbv iota.
  set (users' := set u (set "uuid" (VStr (uuid4 e)) (new_user_data e p q))
                     (stored_users w)).
  unfold _save_users, modify, run_steps, _save_users_steps, write_steps, ret.
  cbn [fold_left negb].
  change (with_users (Holds users') (with_users Invalid w))
    with (mk_world (Holds users') (stats_file w) (xray_file w)
                   (commands w) (errors w) (host w)).
  destruct (update_xray_users_total users'
              (mk_world (Holds users') (stats_file w) (xray_file w)
                        (commands w) (errors w) (host w)))
    as (b & w' & E & _).
  rewrite E. cbn [snd].
  destruct (update_user_traffic_total (tick e) u 0 0 w') as (b2 & w2 & E2 & _).
  rewrite E2. reflexivity.
Qed.

Lemma apply_failed_after_traffic e u a b w w1 :
  apply_failed w (after (update_user_traffic e u a b) w1) <-> apply_failed w w1.
Proof.
  unfold apply_failed.
  destruct (update_user_traffic_frame e u a b w1) as (_ & _ & _ & [-> | ->]).
  - tauto.
  - rewrite count_occ_cons_neq by discriminate. tauto.
Qed.

(** X23. An [add_user] with service ['xray'] that returns [True] and
    whose [update_xray_users] did not fail leaves the new user's fresh
    token in every vmess, vless and trojan client list of the
    artifact. *)
Theorem add_user_lists_token
  (e : env) (u p : string) (q : option Z) (w : world)
  (Hwf : wf (stored_users w))
  (Hok : result (add_user e u p "xray" q) w = inr true)
  (Happlied : ~ apply_failed w (after (add_user e u p "xray" q) w)) :
  token_present (VStr (uuid4 e)) (after (add_user e u p "xray" q) w).
Proof.
  destruct (run_op_true (AddUser e u p "xray" q) w Hok) as (Hv & us & Hs & _).
  simpl in Hs. destruct (mem u (stored_users w)) eqn:Em; [discriminate|].
  clear Hs us.
  pose proof (add_user_xray_eq e u p q w Hv Em) as Heq. cbv zeta in Heq.
  unfold after in Happlied |- * at 1. rewrite Heq in *. cbn [snd] in *.
  set (users' := set u (set "uuid" (VStr (uuid4 e)) (new_user_data e p q))
                     (stored_users w)) in *.
  set (w0 := mk_world (Holds users') (stats_file w) (xray_file w)
                      (commands w) (errors w) (host w)) in *.
  rewrite apply_failed_after_traffic in Happlied.
  assert (He : errors w0 = errors w) by reflexivity.
  assert (Hp : token_present (VStr (uuid4 e)) (after (update_xray_users users') w0)).
  { apply (applied_token_present users' w0 w _ u
             (set "uuid" (VStr (uuid4 e)) (new_user_data e p q))
             (wf_set _ _ _ Hwf) He Happlied).
    - apply get_In. apply get_set_same.
    - reflexivity.
    - reflexivity. }
  destruct (update_user_traffic_frame (tick e) u 0 0 (after (update_xray_users users') w0))
    as (_ & Hx & _).
  unfold token_present in *. rewrite Hx. exact Hp.
Qed.

Lemma add_user_lists_token_witness :
  token_present (VStr "uuid-alice") world_alice.
Proof.
  apply (add_user_lists_token env_1 "alice" "pw" (Some 5) world_configured).
  - constructor.
  - reflexivity.
  - unfold apply_failed. vm_compute. lia.
Defined.

(** X24. An [add_user] with a service other than ['xray'] never touches
    the xray artifact.  With service ['ssh'] a successful call runs
    exactly two commands, [useradd -m -s /bin/bash <name>] and then
    [chpasswd] fed with [<name>:<password>]; with any other service it
    runs none. *)
Theorem add_user_outside_xray
  (e : env) (u p s : string) (q : option Z) (w : world)
  (Hs : s <> "xray") :
  let w' := after (add_user e u p s q) w in
  xray_file w' = xray_file w
  /\ (result (add_user e u p s q) w = inr true ->
      commands w'
      = if String.eqb s "ssh"
        then mk_command ["chpasswd"] (Some (u ++ ":" ++ p))
               :: mk_command ["useradd"; "-m"; "-s"; "/bin/bash"; u] None
               :: commands w
        else commands w).
Proof.
  cbv zeta. apply String.eqb_neq in Hs.
  unfold result, after, add_user, try_except, bind, _load_users.
  destruct (users_file w) as [| |users]; simpl;
    try (split; [reflexivity | discriminate]).
  2: destruct (mem u users); simpl; [split; [reflexivity | discriminate]|].
  all: rewrite Hs; fold (useradd_argv u).
  all: destruct (String.eqb s "ssh"); simpl.
  all: try (run_tools w;
            destruct (can_run (useradd_argv u) w); simpl;
            [|split; [reflexivity | discriminate]];
            run_tools w;
            destruct (can_run ["chpasswd"] w); simpl;
            [|split; [reflexivity | discriminate]]).
  all: match goal with
       | |- context [update_user_traffic ?e0 ?u0 ?a ?b ?w0] =>
           let E := fresh "E" in
           let Hx := fresh "Hx" in
           let Hc := fresh "Hc" in
           destruct (update_user_traffic_total e0 u0 a b w0)
             as (? & ? & E & _ & Hx & Hc & _);
           rewrite E; clear E; simpl in *;
           split; [exact Hx | intros _; exact Hc]
       end.
Qed.

Lemma add_user_outside_xray_witness :
  xray_file world_alice_bob = xray_file world_alice
  /\ commands world_alice_bob
     = mk_command ["chpasswd"] (Some "bob:pw")
         :: mk_command ["useradd"; "-m"; "-s"; "/bin/bash"; "bob"] None
         :: commands world_alice.
Proof.
  destruct (add_user_outside_xray env_2 "bob" "pw" "ssh" None world_alice)
    as [Hx Hc]; [discriminate|].
  split; [exact Hx | exact (Hc eq_refl)].
Defined.

(* ------------------------------------------------------------------ *)
(** ** A tool that cannot be started *)

(** X26. When a tool that an operation starts itself cannot be started
    ([useradd] or [chpasswd] for [add_user] with service ['ssh'],
    [fail2ban-client] for [ban_user] and [unban_user] with service
    ['ssh'], [userdel] for [delete_user]), the operation returns
    [False].  [add_user], [ban_user] and [unban_user] have written
    their change to the users file by then, and it stays; [delete_user]
    starts [userdel] first and leaves the users file as it found it. *)
Theorem tool_failure_after_store_write (o : op) (w : world) (us : users_doc)
  (Hvalid : users_file w <> Invalid)
  (Hstep : store_step o (stored_users w) = Some us)
  (Htools : own_tools_ok o w = false) :
  result (run_op o) w = inr false
  /\ users_file (after (run_op o) w)
     = match o with
       | DeleteUser _ _ => users_file w
       | _ => Holds us
       end.
Proof.
  pose proof (run_op_store o w Hvalid) as H.
  rewrite Hstep, Htools in H. destruct H as [Hr Hf].
  split; [exact Hr|]. destruct o; exact Hf.
Qed.

Lemma tool_failure_after_store_write_witness :
  result (ban_user env_2 "alice" "ssh") world_bare_alice = inr false
  /\ user_field (after (ban_user env_2 "alice" "ssh") world_bare_alice)
                "alice" "banned" = Some (VBool true).
Proof.
  destruct (tool_failure_after_store_write
              (BanUser env_2 "alice" "ssh") world_bare_alice
              (set "alice"
                   (set "banned_at" (VStr (now env_2))
                      (set "banned" (VBool true)
                         (set "uuid" (VStr "uuid-alice")
                            (new_user_data env_1 "pw" (Some 5)))))
                   (stored_users world_bare_alice)))
    as [Hr Hf].
  - discriminate.
  - reflexivity.
  - reflexivity.
  - split; [exact Hr|].
    unfold user_field, stored_users.
    change (run_op (BanUser env_2 "alice" "ssh"))
      with (ban_user env_2 "alice" "ssh") in Hf.
    rewrite Hf. reflexivity.
Defined.

(** X27. [add_user] with service ['ssh'] on a host where [useradd] or
    [chpasswd] cannot be started returns [False], yet the record is in
    the users file; the stats file has no entry for the new user and
    the artifact is untouched.  The name is taken from then on: every
    further [add_user] for it returns [False] and changes nothing. *)
Theorem add_user_ssh_half_done
  (e : env) (u p : string) (q : option Z) (w : world)
  (Hvalid : users_file w <> Invalid)
  (Hnew : mem u (stored_users w) = false)
  (Htool : can_run (useradd_argv u) w && can_run ["chpasswd"] w = false) :
  let w' := after (add_user e u p "ssh" q) w in
  result (add_user e u p "ssh" q) w = inr false
  /\ users_file w' = Holds (set u (new_user_data e p q) (stored_users w))
  /\ stats_file w' = stats_file w
  /\ xray_file w' = xray_file w
  /\ forall e' p' s' q', add_user e' u p' s' q' w' = (inr false, w').
Proof.
  cbv zeta.
  assert (H : result (add_user e u p "ssh" q) w = inr false
              /\ users_file (after (add_user e u p "ssh" q) w)
                 = Holds (set u (new_user_data e p q) (stored_users w))
              /\ stats_file (after (add_user e u p "ssh" q) w) = stats_file w
              /\ xray_file (after (add_user e u p "ssh" q) w) = xray_file w).
  { unfold result, after, add_user, try_except, bind.
    rewrite (load_users_eq w Hvalid). simpl. rewrite Hnew. simpl.
    fold (useradd_argv u). run_tools w.
    destruct (can_run (useradd_argv u) w); simpl.
    - run_tools w. simpl in Htool. rewrite Htool. simpl. repeat split.
    - repeat split. }
  destruct H as (Hr & Hf & Hs & Hx). repeat split; try assumption.
  intros e' p' s' q'.
  set (w' := after (add_user e u p "ssh" q) w) in *.
  assert (Hv' : users_file w' <> Invalid) by (rewrite Hf; discriminate).
  pose proof (run_op_store (AddUser e' u p' s' q') w' Hv') as H.
  simpl in H. unfold stored_users in H at 1. rewrite Hf in H.
  unfold mem in H. rewrite get_set_same in H. exact H.
Qed.

Lemma add_user_ssh_half_done_witness :
  result (add_user env_2 "bob" "pw" "ssh" None) world_alice_no_useradd
  = inr false
  /\ mem "bob" (stored_users (after (add_user env_2 "bob" "pw" "ssh" None)
                                    world_alice_no_useradd))
     = true.
Proof.
  destruct (add_user_ssh_half_done env_2 "bob" "pw" None world_alice_no_useradd)
    as (Hr & Hf & _).
  - discriminate.
  - reflexivity.
  - reflexivity.
  - split; [exact Hr|]. unfold stored_users. rewrite Hf. reflexivity.
Defined.
